(** * NexusClip Linux companion daemon: the protocol core, verified

    A shallow embedding of [linux_companion/nexusclip_daemon.py].

    - Python [str] values are lists of Unicode code points, [bytes] values
      lists of octets; both are [list Z].
    - The daemon object is a record; its methods are computations in a small
      monad with state (the daemon), a trace of collaborator calls
      (socket, clipboard, console) and Python exceptions.
    - A call on the clipboard or on the socket returns or raises, as the
      environment [Env] decides; [print], the clock and [sleep] return.
    - The bodies of the three loops are run one turn at a time, each turn to
      its end: the source's lock makes the two clipboard sections atomic;
      the interleaving of threads inside a turn is not modelled.
    - The peer table is a finite map: it does not keep the order in which a
      Python dict lists its items. That order shows in one place, the order
      of the "disconnected" lines of one cleanup, which is stated for every
      order of the items. *)

From Stdlib Require Import ZArith QArith String Ascii Lia.
From stdpp Require Import gmap list.

Local Open Scope Z_scope.

(** ** Python strings and bytes *)

Abbreviation pystr := (list Z).
Abbreviation bytes := (list Z).

(** A string literal of the source, as its code points. *)
Fixpoint codes (s : string) : pystr :=
  match s with
  | EmptyString => []
  | String a s' => Z.of_N (N_of_ascii a) :: codes s'
  end.

(** [s.startswith(prefix)] *)
Fixpoint startswith (s pre : pystr) {struct pre} : bool :=
  match pre, s with
  | [], _ => true
  | _ :: _, [] => false
  | p :: pre', c :: s' => (c =? p) && startswith s' pre'
  end.

(** [s.split(sep)] for a one-character separator: no maximum count, so every
    occurrence of [sep] cuts. *)
Fixpoint split (sep : Z) (s : pystr) : list pystr :=
  match s with
  | [] => [[]]
  | c :: s' =>
      if c =? sep then [] :: split sep s'
      else match split sep s' with
           | [] => [[c]]
           | part :: parts => (c :: part) :: parts
           end
  end.

(** [s[:n] + "..." if len(s) > n else s] *)
Definition preview (n : nat) (s : pystr) : pystr :=
  if (n <? length s)%nat then take n s ++ codes "..." else s.

(** ** [base64] (CPython's [binascii] module, as of Python 3.11)

    [base64.b64encode(b)] is [binascii.b2a_base64(b, newline=False)];
    [base64.b64decode(s)] with the default [validate=False] is the
    non-strict [binascii.a2b_base64], after a [str] argument has been
    encoded as ASCII. *)
Module Base64.

Definition table_b2a_base64 : pystr :=
  codes "ABCDEFGHIJKLMNOPQRSTUVWXYZabcdefghijklmnopqrstuvwxyz0123456789+/".

Definition BASE64_PAD : Z := 61.  (* '=' *)

Definition b2a (sextet : Z) : Z := nth (Z.to_nat sextet) table_b2a_base64 0.

Fixpoint index_of (ch : Z) (table : pystr) : option Z :=
  match table with
  | [] => None
  | x :: table' => if x =? ch then Some 0 else Z.succ <$> index_of ch table'
  end.

(** [table_a2b_base64]: the value of an alphabet character, nothing for
    any other character. *)
Definition a2b (ch : Z) : option Z := index_of ch table_b2a_base64.

(** Three octets give four characters; one or two left-over octets are
    padded with '='. *)
Fixpoint b2a_base64 (bin : bytes) : pystr :=
  match bin with
  | [] => []
  | [a] =>
      [b2a (Z.shiftr a 2); b2a (Z.shiftl (Z.land a 3) 4);
       BASE64_PAD; BASE64_PAD]
  | [a; b] =>
      [b2a (Z.shiftr a 2);
       b2a (Z.lor (Z.shiftl (Z.land a 3) 4) (Z.shiftr b 4));
       b2a (Z.shiftl (Z.land b 0xf) 2);
       BASE64_PAD]
  | a :: b :: c :: bin' =>
      b2a (Z.shiftr a 2)
      :: b2a (Z.lor (Z.shiftl (Z.land a 3) 4) (Z.shiftr b 4))
      :: b2a (Z.lor (Z.shiftl (Z.land b 0xf) 2) (Z.shiftr c 6))
      :: b2a (Z.land c 0x3f)
      :: b2a_base64 bin'
  end.

(** The decoding loop of [binascii.a2b_base64] in non-strict mode, from the
    state [(quad_pos, leftchar, pads)]. Characters outside the alphabet are
    skipped; a pad that completes a quad ends the decoding; input that ends
    inside a quad is an error ([None]). *)
Fixpoint a2b_loop (quad_pos : nat) (leftchar pads : Z) (ascii : bytes)
  : option bytes :=
  match ascii with
  | [] => if (quad_pos =? 0)%nat then Some [] else None
  | this_ch :: rest =>
      if this_ch =? BASE64_PAD then
        if (2 <=? quad_pos)%nat then
          if 4 <=? Z.of_nat quad_pos + (pads + 1) then Some []
          else a2b_loop quad_pos leftchar (pads + 1) rest
        else a2b_loop quad_pos leftchar pads rest
      else
        match a2b this_ch with
        | None => a2b_loop quad_pos leftchar pads rest
        | Some v =>
            match quad_pos with
            | 0%nat => a2b_loop 1 v 0 rest
            | 1%nat =>
                cons (Z.lor (Z.shiftl leftchar 2) (Z.shiftr v 4))
                  <$> a2b_loop 2 (Z.land v 0x0f) 0 rest
            | 2%nat =>
                cons (Z.lor (Z.shiftl leftchar 4) (Z.shiftr v 2))
                  <$> a2b_loop 3 (Z.land v 0x03) 0 rest
            | _ =>
                cons (Z.lor (Z.shiftl leftchar 6) v)
                  <$> a2b_loop 0 0 0 rest
            end
        end
  end.

Definition a2b_base64 (ascii : bytes) : option bytes := a2b_loop 0 0 0 ascii.

Definition b64encode (s : bytes) : bytes := b2a_base64 s.

Inductive DecodeError := NotAscii | BadBase64.

(** [base64.b64decode(s)] for a [str]: [ValueError] when [s] has a
    character outside ASCII, [binascii.Error] when the decoding fails. *)
Definition b64decode (s : pystr) : DecodeError + bytes :=
  if forallb (λ c, c <? 128) s then
    match a2b_base64 s with
    | Some bin => inr bin
    | None => inl BadBase64
    end
  else inl NotAscii.

End Base64.

(** ** The UTF-8 codec ([str.encode('utf-8')], [bytes.decode('utf-8')])

    Strict, as Python's default error handler: surrogates are not encoded,
    and only well-formed sequences (shortest form, no surrogates, at most
    U+10FFFF) are decoded. *)
Module Utf8.

Definition is_surrogate (c : Z) : bool := (0xD800 <=? c) && (c <=? 0xDFFF).

Definition encode_char (c : Z) : option bytes :=
  if c <? 0 then None
  else if c <? 0x80 then Some [c]
  else if c <? 0x800 then Some [0xC0 + c / 64; 0x80 + c mod 64]
  else if c <? 0x10000 then
    if is_surrogate c then None
    else Some [0xE0 + c / 4096; 0x80 + (c / 64) mod 64; 0x80 + c mod 64]
  else if c <? 0x110000 then
    Some [0xF0 + c / 262144; 0x80 + (c / 4096) mod 64;
          0x80 + (c / 64) mod 64; 0x80 + c mod 64]
  else None.

Fixpoint encode (s : pystr) : option bytes :=
  match s with
  | [] => Some []
  | c :: s' =>
      match encode_char c, encode s' with
      | Some b, Some bs => Some (b ++ bs)
      | _, _ => None
      end
  end.

Definition is_cont (b : Z) : bool := (0x80 <=? b) && (b <? 0xC0).

Fixpoint decode (data : bytes) : option pystr :=
  match data with
  | [] => Some []
  | b1 :: rest1 =>
      if b1 <? 0 then None
      else if b1 <? 0x80 then cons b1 <$> decode rest1
      else if b1 <? 0xC2 then None
      else if b1 <? 0xE0 then
        match rest1 with
        | b2 :: rest2 =>
            if is_cont b2
            then cons ((b1 - 0xC0) * 64 + (b2 - 0x80)) <$> decode rest2
            else None
        | _ => None
        end
      else if b1 <? 0xF0 then
        match rest1 with
        | b2 :: b3 :: rest3 =>
            let c := (b1 - 0xE0) * 4096 + (b2 - 0x80) * 64 + (b3 - 0x80) in
            if is_cont b2 && is_cont b3 && (0x800 <=? c)
               && negb (is_surrogate c)
            then cons c <$> decode rest3
            else None
        | _ => None
        end
      else if b1 <? 0xF5 then
        match rest1 with
        | b2 :: b3 :: b4 :: rest4 =>
            let c := (b1 - 0xF0) * 262144 + (b2 - 0x80) * 4096
                     + (b3 - 0x80) * 64 + (b4 - 0x80) in
            if is_cont b2 && is_cont b3 && is_cont b4
               && (0x10000 <=? c) && (c <? 0x110000)
            then cons c <$> decode rest4
            else None
        | _ => None
        end
      else None
  end.

End Utf8.

(** ** Constants *)

Definition SYNC_PORT : Z := 4040.
Definition BUFFER_SIZE : Z := 65535.
Definition DISCOVERY_MESSAGE : pystr := codes "NEXUSCLIP_DISCOVER".
Definition CLIPBOARD_PREFIX : pystr := codes "NEXUSCLIP_CLIP:".
Definition ACK_PREFIX : pystr := codes "NEXUSCLIP_ACK:".
Definition DEVICE_PREFIX : pystr := codes "NEXUSCLIP_DEVICE:".
Definition HEARTBEAT_MESSAGE : pystr := codes "NEXUSCLIP_HEARTBEAT".

Definition PIPE : Z := 124.  (* '|' *)
Definition BROADCAST_ADDRESS : pystr := codes "255.255.255.255".

(** ** Time

    A [datetime] is a count of microseconds, the resolution of Python's;
    the difference of two is a [timedelta], and [total_seconds] its exact
    value in seconds (Python rounds it to a float). *)

Abbreviation datetime := Z.

Definition total_seconds (delta : Z) : Q := Qmake delta 1000000.

(** ** The device model and the daemon object *)

Record Device := mkDevice {
  address : pystr;
  platform : pystr;
  name : pystr;
  last_seen : datetime
}.

(** [Device.__str__] *)
Definition Device_str (d : Device) : pystr :=
  name d ++ codes " (" ++ platform d ++ codes ") - " ++ address d.

Definition touched (now : datetime) (d : Device) : Device :=
  {| address := address d; platform := platform d; name := name d;
     last_seen := now |}.

(** The fields of [NexusClipDaemon] the protocol reads and writes. The
    socket and the mDNS handles are collaborators: calls to them are events.
    The peer table is a finite map from addresses: it keeps what the dict
    holds under each key, not the order in which the keys were inserted,
    which only the listing of [_cleanup_stale_devices] reads. *)
Record Daemon := mkDaemon {
  port : Z;
  verbose : bool;
  running : bool;
  discovered_devices : gmap pystr Device;
  last_clipboard : pystr
}.

(** [NexusClipDaemon.__init__] *)
Definition init (port : Z) (verbose : bool) : Daemon :=
  {| port := port; verbose := verbose; running := false;
     discovered_devices := ∅; last_clipboard := [] |}.

Definition with_devices (devs : gmap pystr Device) (self : Daemon) : Daemon :=
  {| port := port self; verbose := verbose self; running := running self;
     discovered_devices := devs; last_clipboard := last_clipboard self |}.

Definition with_clipboard (text : pystr) (self : Daemon) : Daemon :=
  {| port := port self; verbose := verbose self; running := running self;
     discovered_devices := discovered_devices self; last_clipboard := text |}.

Definition with_running (b : bool) (self : Daemon) : Daemon :=
  {| port := port self; verbose := verbose self; running := b;
     discovered_devices := discovered_devices self;
     last_clipboard := last_clipboard self |}.

(** What [start()] and [stop()] do to the daemon's fields; the loops read
    [running] at the head of every turn. *)
Definition start (self : Daemon) : Daemon := with_running true self.
Definition stop (self : Daemon) : Daemon := with_running false self.

(** ** Effects: exceptions and the trace of collaborator calls *)

Inductive Exn :=
| UnicodeDecodeError
| UnicodeEncodeError
| ValueError
| BinasciiError
| PyperclipException
| OSError
| SocketTimeout.

(** What the daemon prints. The lines marked verbose are printed only when
    [self.verbose] is set. *)
Inductive LogLine :=
| RespondedToDiscovery (sender : pystr)        (* verbose *)
| DeviceDiscovered (device : pystr)
| DeviceParseError (e : Exn)                   (* verbose *)
| Received (text : pystr)
| ClipboardError (e : Exn)                     (* verbose *)
| AckFrom (sender ack_type : pystr)            (* verbose *)
| Sent (text : pystr)
| BroadcastError (e : Exn)                     (* verbose *)
| SendError (e : Exn)                          (* verbose *)
| ListenError (e : Exn)                        (* verbose *)
| MonitorError (e : Exn)                       (* verbose *)
| HeartbeatError (e : Exn)                     (* verbose *)
| DeviceDisconnected (name : pystr).

(** A call the daemon makes on a collaborator, with its arguments. *)
Inductive Event :=
| Sendto (data : bytes) (host : pystr) (port : Z)  (* socket.sendto *)
| ClipboardCopy (text : pystr)                     (* pyperclip.copy *)
| Print (line : LogLine).

Inductive Outcome (A : Type) :=
| Returned (a : A)
| Raised (e : Exn).
Arguments Returned {A} a.
Arguments Raised {A} e.

(** A method body: from the daemon before the call to how the call ends,
    the daemon after it and the calls made on the way. An exception keeps
    the assignments made before it was raised. *)
Definition M (A : Type) : Type := Daemon → Outcome A * Daemon * list Event.

Definition ret {A} (a : A) : M A := λ self, (Returned a, self, []).

Definition bind {A B} (m : M A) (k : A → M B) : M B := λ self,
  match m self with
  | (Returned a, self', t) =>
      let '(r, self'', t') := k a self' in (r, self'', t ++ t')
  | (Raised e, self', t) => (Raised e, self', t)
  end.

Definition raise {A} (e : Exn) : M A := λ self, (Raised e, self, []).

(** [try: body  except Exception as e: handler] *)
Definition try_except (body : M unit) (handler : Exn → M unit) : M unit :=
  λ self,
  match body self with
  | (Returned a, self', t) => (Returned a, self', t)
  | (Raised e, self', t) =>
      let '(r, self'', t') := handler e self' in (r, self'', t ++ t')
  end.

Definition get : M Daemon := λ self, (Returned self, self, []).
Definition put (self' : Daemon) : M unit := λ _, (Returned tt, self', []).
Definition emit (ev : Event) : M unit := λ self, (Returned tt, self, [ev]).

#[export] Instance M_ret : MRet M := @ret.
#[export] Instance M_bind : MBind M := λ A B k m, bind m k.

Definition print (line : LogLine) : M unit := emit (Print line).

Definition when (b : bool) (m : M unit) : M unit := if b then m else ret tt.

Fixpoint for_each {A} (l : list A) (body : A → M unit) : M unit :=
  match l with
  | [] => ret tt
  | x :: l' => body x;; for_each l' body
  end.

(** The daemon and the trace a computation ends with. *)
Definition exec {A} (m : M A) (self : Daemon) : Daemon * list Event :=
  let '(_, self', t) := m self in (self', t).

Definition outcome {A} (m : M A) (self : Daemon) : Outcome A :=
  (m self).1.1.

(** ** The wire messages

    The source has no message type: a frame is built where it is sent and
    taken apart where it is handled. [encode] collects the expressions that
    build the frames ([_respond_to_discovery], [_broadcast_clipboard], the
    reply of [_handle_clipboard], [_heartbeat_loop]); [decode] collects the
    tests of [_handle_message] and the parsing steps of the handlers it
    calls, in their order. [handle_message_run] below shows that
    [_handle_message] acts on a frame as on the message [decode] reads. *)

Inductive WireMessage :=
| Discover
| DeviceAnnounce (platform name : pystr)
| ClipboardPayload (text : pystr)
| Ack (status : pystr)
| Heartbeat.

(** The text of a clipboard frame after the prefix, as [_handle_clipboard]
    reads it: [base64.b64decode(...).decode('utf-8')]. *)
Definition payload_text (payload : pystr) : Exn + pystr :=
  match Base64.b64decode payload with
  | inl Base64.NotAscii => inl ValueError
  | inl Base64.BadBase64 => inl BinasciiError
  | inr raw =>
      match Utf8.decode raw with
      | Some text => inr text
      | None => inl UnicodeDecodeError
      end
  end.

(** No frame for a text that UTF-8 cannot encode (a lone surrogate). *)
Definition encode (m : WireMessage) : option pystr :=
  match m with
  | Discover => Some DISCOVERY_MESSAGE
  | DeviceAnnounce platform name =>
      Some (DEVICE_PREFIX ++ platform ++ [PIPE] ++ name)
  | ClipboardPayload text =>
      raw ← Utf8.encode text;
      Some (CLIPBOARD_PREFIX ++ Base64.b64encode raw)
  | Ack status => Some (ACK_PREFIX ++ status)
  | Heartbeat => Some HEARTBEAT_MESSAGE
  end.

(** Nothing for a frame that is dropped. *)
Definition decode (message : pystr) : option WireMessage :=
  if bool_decide (message = DISCOVERY_MESSAGE) then Some Discover
  else if startswith message DEVICE_PREFIX then
    let parts := split PIPE (drop (length DEVICE_PREFIX) message) in
    if bool_decide (2 ≤ length parts)%nat
    then Some (DeviceAnnounce (parts !!! 0%nat) (parts !!! 1%nat))
    else None
  else if startswith message CLIPBOARD_PREFIX then
    match payload_text (drop (length CLIPBOARD_PREFIX) message) with
    | inr text => Some (ClipboardPayload text)
    | inl _ => None
    end
  else if startswith message ACK_PREFIX then
    Some (Ack (drop (length ACK_PREFIX) message))
  else if bool_decide (message = HEARTBEAT_MESSAGE) then Some Heartbeat
  else None.

(** ** The collaborators

    What the daemon cannot decide: the host name, and whether a call on the
    clipboard or on the socket raises. *)
Record Env := mkEnv {
  node : pystr;                          (* platform.node() *)
  copy_raises : pystr → bool;            (* pyperclip.copy(text) raises *)
  sendto_raises : bytes → pystr → bool   (* socket.sendto(data, (host, port)) raises *)
}.

(** What [socket.recvfrom] gives the listening thread. *)
Inductive Recv :=
| RecvFrom (data : bytes) (host : pystr)
| RecvTimeout
| RecvError.

(** What [pyperclip.paste] gives the monitoring thread. *)
Inductive Paste :=
| Pasted (text : pystr)
| PasteError.

(** ** The methods of [NexusClipDaemon] *)
Section NexusClipDaemon.

Context (env : Env).

(** [s.encode('utf-8')] and [b.decode('utf-8')] *)
Definition str_encode (s : pystr) : M bytes :=
  match Utf8.encode s with
  | Some data => mret data
  | None => raise UnicodeEncodeError
  end.

Definition bytes_decode (data : bytes) : M pystr :=
  match Utf8.decode data with
  | Some s => mret s
  | None => raise UnicodeDecodeError
  end.

Definition b64decode (s : pystr) : M bytes :=
  match Base64.b64decode s with
  | inr data => mret data
  | inl Base64.NotAscii => raise ValueError
  | inl Base64.BadBase64 => raise BinasciiError
  end.

Definition socket_sendto (data : bytes) (host : pystr) : M unit :=
  self ← get;
  emit (Sendto data host (port self));;
  if sendto_raises env data host then raise OSError else mret tt.

Definition pyperclip_copy (text : pystr) : M unit :=
  emit (ClipboardCopy text);;
  if copy_raises env text then raise PyperclipException else mret tt.

Definition pyperclip_paste (p : Paste) : M pystr :=
  match p with
  | Pasted text => mret text
  | PasteError => raise PyperclipException
  end.

Definition socket_recvfrom (r : Recv) : M (bytes * pystr) :=
  match r with
  | RecvFrom data host => mret (take (Z.to_nat BUFFER_SIZE) data, host)
  | RecvTimeout => raise SocketTimeout
  | RecvError => raise OSError
  end.

Definition _send_to (message address : pystr) : M unit :=
  try_except
    (data ← str_encode message;
     socket_sendto data address)
    (λ e, self ← get; when (verbose self) (print (SendError e))).

Definition _broadcast (message : pystr) : M unit :=
  try_except
    (data ← str_encode message;
     socket_sendto data BROADCAST_ADDRESS)
    (λ e, self ← get; when (verbose self) (print (BroadcastError e))).

Definition _broadcast_clipboard (content : pystr) : M unit :=
  raw ← str_encode content;
  (* the Base64 text is ASCII: its octets are its code points *)
  let encoded := Base64.b64encode raw in
  let message := CLIPBOARD_PREFIX ++ encoded in
  _broadcast message;;
  print (Sent (preview 30 content)).

Definition _respond_to_discovery (sender : pystr) : M unit :=
  let device_name :=
    if bool_decide (node env = []) then codes "Linux" else node env in
  let response := DEVICE_PREFIX ++ codes "Linux|" ++ device_name in
  _send_to response sender;;
  self ← get;
  when (verbose self) (print (RespondedToDiscovery sender)).

Definition _handle_device_response (now : datetime) (message sender : pystr)
  : M unit :=
  try_except
    (let parts := split PIPE (drop (length DEVICE_PREFIX) message) in
     if bool_decide (2 ≤ length parts)%nat then
       let device :=
         {| address := sender; platform := parts !!! 0%nat;
            name := parts !!! 1%nat; last_seen := now |} in
       self ← get;
       put (with_devices (<[sender := device]> (discovered_devices self)) self);;
       print (DeviceDiscovered (Device_str device))
     else mret tt)
    (λ e, self ← get; when (verbose self) (print (DeviceParseError e))).

Definition _handle_clipboard (message sender : pystr) : M unit :=
  try_except
    (let base64_content := drop (length CLIPBOARD_PREFIX) message in
     raw ← b64decode base64_content;
     content ← bytes_decode raw;
     (* with self.clipboard_lock: *)
     self ← get;
     if bool_decide (content ≠ last_clipboard self) then
       put (with_clipboard content self);;
       pyperclip_copy content;;
       _send_to (ACK_PREFIX ++ codes "RECEIVED") sender;;
       print (Received (preview 50 content))
     else mret tt)
    (λ e, self ← get; when (verbose self) (print (ClipboardError e))).

Definition _handle_ack (message sender : pystr) : M unit :=
  let ack_type := drop (length ACK_PREFIX) message in
  self ← get;
  when (verbose self) (print (AckFrom sender ack_type)).

Definition _handle_heartbeat (now : datetime) (sender : pystr) : M unit :=
  self ← get;
  match discovered_devices self !! sender with
  | Some device =>
      put (with_devices
             (<[sender := touched now device]> (discovered_devices self)) self)
  | None => mret tt
  end.

(** The dispatch on the frame; [now] is what [datetime.now()] reads while
    the frame is handled. *)
Definition _handle_message (now : datetime) (message sender : pystr)
  : M unit :=
  if bool_decide (message = DISCOVERY_MESSAGE) then
    _respond_to_discovery sender
  else if startswith message DEVICE_PREFIX then
    _handle_device_response now message sender
  else if startswith message CLIPBOARD_PREFIX then
    _handle_clipboard message sender
  else if startswith message ACK_PREFIX then
    _handle_ack message sender
  else if bool_decide (message = HEARTBEAT_MESSAGE) then
    _handle_heartbeat now sender
  else mret tt.

(** [(now - device.last_seen).total_seconds() > stale_timeout] *)
Definition is_stale (now : datetime) (stale_timeout : Q) (device : Device)
  : bool :=
  negb (Qle_bool (total_seconds (now - last_seen device)) stale_timeout).

(** [_cleanup_stale_devices] from the list [items] that
    [self.discovered_devices.items()] gives: the comprehension that collects
    the stale addresses, then the loop that pops and reports them. *)
Definition cleanup_stale_items (now : datetime)
    (items : list (pystr * Device)) : M unit :=
  let stale_timeout := 120%Q in
  let stale_devices :=
    (filter (λ item, is_stale now stale_timeout item.2 = true) items).*1 in
  for_each stale_devices (λ addr,
    self ← get;
    let device := discovered_devices self !! addr in
    put (with_devices (delete addr (discovered_devices self)) self);;
    match device with
    | Some device => print (DeviceDisconnected (name device))
    | None => mret tt
    end).

(** A Python dict gives its items in the order of their insertion, which
    the finite map does not record: here they come in the map's own order.
    The order of the items decides the order of the "disconnected" lines and
    nothing else ([cleanup_in_any_order]), so what is stated of these lines
    is stated for every order of the items, or up to their order. *)
Definition _cleanup_stale_devices (now : datetime) : M unit :=
  self ← get;
  cleanup_stale_items now (map_to_list (discovered_devices self)).

(** *** The three loops, one iteration per input *)

(** One turn of [_listen_loop]: a timeout is passed over, any other
    exception is printed when running and verbose. *)
Definition _listen_loop_body (now : datetime) (r : Recv) : M unit :=
  try_except
    ('(data, addr) ← socket_recvfrom r;
     message ← bytes_decode data;
     _handle_message now message addr)
    (λ e,
      match e with
      | SocketTimeout => mret tt
      | _ => self ← get;
             when (running self && verbose self) (print (ListenError e))
      end).

Fixpoint _listen_loop (inbox : list (datetime * Recv)) : M unit :=
  match inbox with
  | [] => mret tt
  | (now, r) :: inbox' =>
      self ← get;
      if running self
      then _listen_loop_body now r;; _listen_loop inbox'
      else mret tt
  end.

(** One turn of [_clipboard_monitor_loop]. *)
Definition _clipboard_monitor_loop_body (p : Paste) : M unit :=
  try_except
    (current ← pyperclip_paste p;
     (* with self.clipboard_lock: *)
     self ← get;
     if negb (bool_decide (current = []))
        && bool_decide (current ≠ last_clipboard self) then
       put (with_clipboard current self);;
       _broadcast_clipboard current
     else mret tt)
    (λ e, self ← get; when (verbose self) (print (MonitorError e))).

Fixpoint _clipboard_monitor_loop (pastes : list Paste) : M unit :=
  match pastes with
  | [] => mret tt
  | p :: pastes' =>
      self ← get;
      if running self
      then _clipboard_monitor_loop_body p;; _clipboard_monitor_loop pastes'
      else mret tt
  end.

(** One turn of [_heartbeat_loop]. *)
Definition _heartbeat_loop_body (now : datetime) : M unit :=
  try_except
    (_broadcast HEARTBEAT_MESSAGE;;
     _cleanup_stale_devices now)
    (λ e, self ← get; when (verbose self) (print (HeartbeatError e))).

Fixpoint _heartbeat_loop (beats : list datetime) : M unit :=
  match beats with
  | [] => mret tt
  | now :: beats' =>
      self ← get;
      if running self
      then _heartbeat_loop_body now;; _heartbeat_loop beats'
      else mret tt
  end.

End NexusClipDaemon.

(** ** Reading a trace *)

(** The calls of [socket.sendto] with their datagram and address, the calls
    of [pyperclip.copy] with their text, and the lines printed, each in
    order. *)
Definition sendto_calls (t : list Event) : list (bytes * pystr * Z) :=
  omap (λ ev, match ev with
              | Sendto data host port => Some (data, host, port)
              | _ => None
              end) t.

Definition copy_calls (t : list Event) : list pystr :=
  omap (λ ev, match ev with ClipboardCopy text => Some text | _ => None end) t.

Definition printed (t : list Event) : list LogLine :=
  omap (λ ev, match ev with Print line => Some line | _ => None end) t.

(** A line that is printed only in verbose mode. *)
Definition verbose_log (self : Daemon) (line : LogLine) : list Event :=
  if verbose self then [Print line] else [].

(** What a handled frame does to a peer's [last_seen]. *)
Definition refreshes_last_seen (m : option WireMessage) : bool :=
  match m with
  | Some Heartbeat | Some (DeviceAnnounce _ _) => true
  | _ => false
  end.

(** ** A host to run the daemon on

    The host is named "hostB", its clipboard takes every text, and its
    socket refuses a datagram beyond the 65507 octets that UDP over IPv4
    carries. *)
Definition hostB : Env :=
  {| node := codes "hostB";
     copy_raises := λ _, false;
     sendto_raises := λ data _, 65507 <? Z.of_nat (length data) |}.

(** The same host without a clipboard mechanism (no xclip, no xsel): there
    [pyperclip.copy] raises on every text. *)
Definition headless : Env :=
  {| node := node hostB;
     copy_raises := λ _, true;
     sendto_raises := sendto_raises hostB |}.

(** The daemon after [start()], on the default port. *)
Definition started : Daemon := start (init SYNC_PORT true).

Definition peerA : pystr := codes "192.168.1.10".

(** How [_handle_clipboard] ends on a frame whose text is [content]. *)
Definition applied (env : Env) (sender content : pystr) (s : Daemon)
  : Outcome unit * Daemon * list Event :=
  if bool_decide (content = last_clipboard s) then (Returned tt, s, [])
  else
    (Returned tt, with_clipboard content s,
     ClipboardCopy content
     :: (if copy_raises env content
         then verbose_log s (ClipboardError PyperclipException)
         else
           Sendto (ACK_PREFIX ++ codes "RECEIVED") sender (port s)
           :: (if sendto_raises env (ACK_PREFIX ++ codes "RECEIVED") sender
               then verbose_log s (SendError OSError) else [])
           ++ [Print (Received (preview 50 content))])).

(** What is printed for a frame that is dropped: the exception of a
    clipboard frame that does not decode, in verbose mode. *)
Definition dropped_log (s : Daemon) (message : pystr) : list Event :=
  if startswith message CLIPBOARD_PREFIX then
    match payload_text (drop (length CLIPBOARD_PREFIX) message) with
    | inl e => verbose_log s (ClipboardError e)
    | inr _ => []
    end
  else [].

(** The messages [decode (encode m)] gives back: no '|' in the two fields
    of an announce. *)
Definition pipe_free (m : WireMessage) : Prop :=
  match m with
  | DeviceAnnounce platform name => (PIPE ∉ platform) ∧ (PIPE ∉ name)
  | _ => True
  end.

(** * Facts about the model *)

(** ** Strings *)

Lemma startswith_app (pre s : pystr) : startswith (pre ++ s) pre = true.
Proof.
  induction pre as [|p pre IH]; simpl; [done|].
  by rewrite Z.eqb_refl, IH.
Qed.

Lemma startswith_spec (s pre : pystr) :
  startswith s pre = true ↔ ∃ rest, s = pre ++ rest.
Proof.
  split.
  - revert s. induction pre as [|p pre IH]; intros s H; simpl in *.
    + by exists s.
    + destruct s as [|c s]; [done|].
      apply andb_true_iff in H as [Hc Hs]. apply Z.eqb_eq in Hc as ->.
      destruct (IH _ Hs) as [rest ->]. by exists rest.
  - intros [rest ->]. apply startswith_app.
Qed.

Lemma drop_prefix (pre s : pystr) : drop (length pre) (pre ++ s) = s.
Proof. by rewrite drop_app_length. Qed.

Lemma split_no_sep (sep : Z) (s : pystr) : sep ∉ s → split sep s = [s].
Proof.
  induction s as [|c s IH]; intros Hs; simpl; [done|].
  apply not_elem_of_cons in Hs as [Hc Hs].
  destruct (Z.eqb_spec c sep) as [->|_]; [done|].
  by rewrite (IH Hs).
Qed.

Lemma split_app_sep (sep : Z) (s t : pystr) :
  sep ∉ s → split sep (s ++ sep :: t) = s :: split sep t.
Proof.
  induction s as [|c s IH]; intros Hs; simpl.
  - by rewrite Z.eqb_refl.
  - apply not_elem_of_cons in Hs as [Hc Hs].
    destruct (Z.eqb_spec c sep) as [->|_]; [done|].
    by rewrite (IH Hs).
Qed.

Lemma split_nonempty (sep : Z) (s : pystr) : split sep s ≠ [].
Proof.
  destruct s as [|c s]; simpl; [done|].
  destruct (c =? sep); [done|]. by destruct (split sep s).
Qed.

(** ** The codecs on examples

    The values are those of CPython 3.11. *)

Example b64encode_hello : Base64.b64encode (codes "hello") = codes "aGVsbG8=".
Proof. reflexivity. Qed.

Example b64decode_hello :
  Base64.b64decode (codes "aGVsbG8=") = inr (codes "hello").
Proof. reflexivity. Qed.

(** Seven characters of the alphabet end inside a quad: "Incorrect padding". *)
Example b64decode_incomplete :
  Base64.b64decode (codes "aGVsbG8") = inl Base64.BadBase64.
Proof. reflexivity. Qed.

(** Characters outside the alphabet are skipped, not refused. *)
Example b64decode_skips :
  Base64.b64decode (codes "!!!!") = inr []
  ∧ Base64.b64decode (codes "aG Vs!bG8=") = inr (codes "hello")
  ∧ Base64.b64decode (codes "ab=c=") = inr [105; 183].
Proof. repeat split. Qed.

Example utf8_encode_euro :
  Utf8.encode [0x20AC; 0x1F600; 0xE9]
  = Some [0xE2; 0x82; 0xAC; 0xF0; 0x9F; 0x98; 0x80; 0xC3; 0xA9].
Proof. reflexivity. Qed.

(** An overlong form, an encoded surrogate and a lone continuation octet are
    refused. *)
Example utf8_decode_strict :
  Utf8.decode [0xC0; 0x80] = None
  ∧ Utf8.decode [0xED; 0xA0; 0x80] = None
  ∧ Utf8.decode [0x80] = None
  ∧ Utf8.encode [0xD800] = None.
Proof. repeat split. Qed.

(** ** UTF-8: decoding undoes encoding *)

Module Utf8Facts.
Import Utf8.

Ltac decide_tests :=
  repeat match goal with
    | |- context [?a <? ?b] =>
        destruct (Z.ltb_spec a b); try (exfalso; lia)
    | |- context [?a <=? ?b] =>
        destruct (Z.leb_spec a b); try (exfalso; lia)
    end.

Lemma decode_encode_char (c : Z) (b rest : bytes) :
  encode_char c = Some b → decode (b ++ rest) = cons c <$> decode rest.
Proof.
  unfold encode_char, is_surrogate.
  destruct (Z.ltb_spec c 0); [done|].
  destruct (Z.ltb_spec c 0x80).
  { intros [= <-]. cbn [app decode]. by decide_tests. }
  destruct (Z.ltb_spec c 0x800).
  { intros [= <-]. cbn [app decode]. unfold is_cont.
    pose proof (Z.div_mod c 64 ltac:(lia)).
    pose proof (Z.mod_pos_bound c 64 ltac:(lia)).
    decide_tests. cbn [andb]. do 2 f_equal. lia. }
  destruct (Z.ltb_spec c 0x10000).
  { destruct (Z.leb_spec 0xD800 c), (Z.leb_spec c 0xDFFF); cbn [andb];
      try done; intros [= <-]; cbn [app decode]; unfold is_cont, is_surrogate;
      pose proof (Z.div_mod c 64 ltac:(lia));
      pose proof (Z.mod_pos_bound c 64 ltac:(lia));
      pose proof (Z.div_mod (c / 64) 64 ltac:(lia));
      pose proof (Z.mod_pos_bound (c / 64) 64 ltac:(lia));
      assert (c / 4096 = c / 64 / 64) as -> by (rewrite Z.div_div by lia; reflexivity);
      assert ((0xE0 + c / 64 / 64 - 0xE0) * 4096 + (0x80 + (c / 64) mod 64 - 0x80) * 64 + (0x80 + c mod 64 - 0x80) = c) as -> by lia;
      decide_tests; done. }
  destruct (Z.ltb_spec c 0x110000); [|done].
  intros [= <-]; cbn [app decode]; unfold is_cont.
  pose proof (Z.div_mod c 64 ltac:(lia)).
  pose proof (Z.mod_pos_bound c 64 ltac:(lia)).
  pose proof (Z.div_mod (c / 64) 64 ltac:(lia)).
  pose proof (Z.mod_pos_bound (c / 64) 64 ltac:(lia)).
  pose proof (Z.div_mod (c / 64 / 64) 64 ltac:(lia)).
  pose proof (Z.mod_pos_bound (c / 64 / 64) 64 ltac:(lia)).
  assert (c / 4096 = c / 64 / 64) as -> by (rewrite Z.div_div by lia; reflexivity).
  assert (c / 262144 = c / 64 / 64 / 64) as -> by (rewrite !Z.div_div by lia; reflexivity).
  assert ((0xF0 + c / 64 / 64 / 64 - 0xF0) * 262144 + (0x80 + (c / 64 / 64) mod 64 - 0x80) * 4096 + (0x80 + (c / 64) mod 64 - 0x80) * 64 + (0x80 + c mod 64 - 0x80) = c) as -> by lia.
  decide_tests; done.
Qed.

Lemma decode_encode (s : pystr) (raw : bytes) :
  encode s = Some raw → decode raw = Some s.
Proof.
  revert raw. induction s as [|c s IH]; intros raw; simpl.
  - by intros [= <-].
  - destruct (encode_char c) as [b|] eqn:Hc; [|done].
    destruct (encode s) as [bs|]; [|done].
    intros [= <-]. rewrite (decode_encode_char _ _ _ Hc), (IH bs eq_refl). done.
Qed.
Lemma encode_ascii (s : pystr) :
  Forall (λ c, 0 ≤ c < 128) s → encode s = Some s.
Proof.
  induction 1 as [|c s Hc _ IH]; [done|].
  cbn [encode]. rewrite IH. unfold encode_char. by decide_tests.
Qed.

Lemma encode_char_octets (c : Z) (b : bytes) :
  encode_char c = Some b → Forall (λ x, 0 ≤ x < 256) b.
Proof.
  unfold encode_char, is_surrogate.
  pose proof (Z.mod_pos_bound c 64 ltac:(lia)).
  pose proof (Z.mod_pos_bound (c / 64) 64 ltac:(lia)).
  pose proof (Z.mod_pos_bound (c / 4096) 64 ltac:(lia)).
  destruct (Z.ltb_spec c 0); [done|].
  assert (0 ≤ c / 64) by (apply Z.div_pos; lia).
  assert (0 ≤ c / 4096) by (apply Z.div_pos; lia).
  assert (0 ≤ c / 262144) by (apply Z.div_pos; lia).
  destruct (Z.ltb_spec c 0x80).
  { intros [= <-]. repeat constructor; lia. }
  destruct (Z.ltb_spec c 0x800).
  { assert (c / 64 < 32) by (apply Z.div_lt_upper_bound; lia).
    intros [= <-]. repeat constructor; lia. }
  destruct (Z.ltb_spec c 0x10000).
  { assert (c / 4096 < 16) by (apply Z.div_lt_upper_bound; lia).
    destruct (_ && _); [done|]. intros [= <-]. repeat constructor; lia. }
  destruct (Z.ltb_spec c 0x110000); [|done].
  assert (c / 262144 < 8) by (apply Z.div_lt_upper_bound; lia).
  intros [= <-]. repeat constructor; lia.
Qed.

Lemma encode_octets (s : pystr) (raw : bytes) :
  encode s = Some raw → Forall (λ x, 0 ≤ x < 256) raw.
Proof.
  revert raw. induction s as [|c s IH]; intros raw; cbn [encode].
  - intros [= <-]. constructor.
  - destruct (encode_char c) as [b|] eqn:Hc; [|done].
    destruct (encode s) as [bs|]; [|done].
    intros [= <-]. apply Forall_app. split; [by eapply encode_char_octets|by apply IH].
Qed.
End Utf8Facts.

(** ** Base64: decoding undoes encoding *)
Module Base64Facts.
Import Base64.

Definition octet (b : Z) : Prop := 0 ≤ b < 256.

(** Checking a property of the numbers below a bound by running it. *)
Lemma forall_below (n : nat) (P : Z → bool) :
  forallb P (seqZ 0 (Z.of_nat n)) = true → ∀ x, 0 ≤ x < Z.of_nat n → P x = true.
Proof.
  intros H x Hx. rewrite forallb_forall in H.
  apply H, list_elem_of_In, elem_of_seqZ. lia.
Qed.

Lemma below_256 (P : Z → bool) :
  forallb P (seqZ 0 256) = true → ∀ x, octet x → P x = true.
Proof. apply (forall_below 256). Qed.

Lemma b2a_a2b (v : Z) :
  0 ≤ v < 64 → (b2a v =? BASE64_PAD) = false ∧ a2b (b2a v) = Some v.
Proof.
  intros Hv.
  pose (check v := negb (b2a v =? BASE64_PAD)
                   && match a2b (b2a v) with Some w => w =? v | None => false end).
  assert (check v = true) as H
      by (apply (forall_below 64); [by vm_compute | done]).
  unfold check in H. apply andb_true_iff in H as [H1 H2].
  split; [by apply negb_true_iff|].
  destruct (a2b (b2a v)) as [w|]; [|done]. by apply Z.eqb_eq in H2 as ->.
Qed.

Lemma b2a_ascii (v : Z) : 0 ≤ b2a v < 128.
Proof.
  unfold b2a. generalize (Z.to_nat v) as n. intros n.
  do 64 (destruct n as [|n]; [by vm_compute|]). by destruct n; vm_compute.
Qed.

(** The bit layout of a quad, checked on every pair of octets. *)
Definition sextet (v : Z) : bool := (0 <=? v) && (v <? 64).

Lemma first_octet (a b : Z) :
  octet a → octet b →
  let s1 := Z.shiftr a 2 in
  let s2 := Z.lor (Z.shiftl (Z.land a 3) 4) (Z.shiftr b 4) in
  (0 ≤ s1 < 64 ∧ 0 ≤ s2 < 64)
  ∧ Z.lor (Z.shiftl s1 2) (Z.shiftr s2 4) = a
  ∧ Z.land s2 0x0f = Z.shiftr b 4.
Proof.
  intros Ha Hb.
  pose (check a b :=
    let s1 := Z.shiftr a 2 in
    let s2 := Z.lor (Z.shiftl (Z.land a 3) 4) (Z.shiftr b 4) in
    sextet s1 && sextet s2
    && (Z.lor (Z.shiftl s1 2) (Z.shiftr s2 4) =? a)
    && (Z.land s2 0x0f =? Z.shiftr b 4)).
  assert (check a b = true) as H.
  { apply (below_256 (λ a, forallb (check a) (seqZ 0 256))) in Ha;
      [|by vm_compute].
    by apply (below_256 (check a)). }
  unfold check, sextet in H. cbv zeta in H. cbv zeta.
  repeat (apply andb_true_iff in H as [H ?]). lia.
Qed.

Lemma second_octet (b c : Z) :
  octet b → octet c →
  let s3 := Z.lor (Z.shiftl (Z.land b 0xf) 2) (Z.shiftr c 6) in
  0 ≤ s3 < 64
  ∧ Z.lor (Z.shiftl (Z.shiftr b 4) 4) (Z.shiftr s3 2) = b
  ∧ Z.land s3 0x03 = Z.shiftr c 6.
Proof.
  intros Hb Hc.
  pose (check b c :=
    let s3 := Z.lor (Z.shiftl (Z.land b 0xf) 2) (Z.shiftr c 6) in
    sextet s3
    && (Z.lor (Z.shiftl (Z.shiftr b 4) 4) (Z.shiftr s3 2) =? b)
    && (Z.land s3 0x03 =? Z.shiftr c 6)).
  assert (check b c = true) as H.
  { apply (below_256 (λ b, forallb (check b) (seqZ 0 256))) in Hb;
      [|by vm_compute].
    by apply (below_256 (check b)). }
  unfold check, sextet in H. cbv zeta in H. cbv zeta.
  repeat (apply andb_true_iff in H as [H ?]). lia.
Qed.

Lemma third_octet (c : Z) :
  octet c →
  let s4 := Z.land c 0x3f in
  0 ≤ s4 < 64 ∧ Z.lor (Z.shiftl (Z.shiftr c 6) 6) s4 = c.
Proof.
  intros Hc.
  pose (check c :=
    let s4 := Z.land c 0x3f in
    sextet s4 && (Z.lor (Z.shiftl (Z.shiftr c 6) 6) s4 =? c)).
  assert (check c = true) as H by (by apply below_256; [vm_compute|]).
  unfold check, sextet in H. cbv zeta in H. cbv zeta.
  repeat (apply andb_true_iff in H as [H ?]). lia.
Qed.

(** One step of the decoding loop on an alphabet character. *)
Lemma a2b_loop_char (quad_pos : nat) (leftchar pads v : Z) (rest : bytes) :
  0 ≤ v < 64 →
  a2b_loop quad_pos leftchar pads (b2a v :: rest) =
    match quad_pos with
    | 0%nat => a2b_loop 1 v 0 rest
    | 1%nat =>
        cons (Z.lor (Z.shiftl leftchar 2) (Z.shiftr v 4))
          <$> a2b_loop 2 (Z.land v 0x0f) 0 rest
    | 2%nat =>
        cons (Z.lor (Z.shiftl leftchar 4) (Z.shiftr v 2))
          <$> a2b_loop 3 (Z.land v 0x03) 0 rest
    | _ => cons (Z.lor (Z.shiftl leftchar 6) v) <$> a2b_loop 0 0 0 rest
    end.
Proof.
  intros Hv. destruct (b2a_a2b v Hv) as [Hpad Hval].
  cbn [a2b_loop]. by rewrite Hpad, Hval.
Qed.

Lemma a2b_loop_quad (a b c : Z) (rest : bytes) :
  octet a → octet b → octet c →
  a2b_loop 0 0 0
    (b2a (Z.shiftr a 2)
     :: b2a (Z.lor (Z.shiftl (Z.land a 3) 4) (Z.shiftr b 4))
     :: b2a (Z.lor (Z.shiftl (Z.land b 0xf) 2) (Z.shiftr c 6))
     :: b2a (Z.land c 0x3f) :: rest)
  = (λ bin, a :: b :: c :: bin) <$> a2b_loop 0 0 0 rest.
Proof.
  intros Ha Hb Hc.
  destruct (first_octet a b Ha Hb) as ((Hs1 & Hs2) & Ho1 & Hl1).
  destruct (second_octet b c Hb Hc) as (Hs3 & Ho2 & Hl2).
  destruct (third_octet c Hc) as (Hs4 & Ho3).
  cbv zeta in *.
  rewrite !a2b_loop_char by done.
  rewrite Ho1, Hl1, Ho2, Hl2, Ho3.
  by destruct (a2b_loop 0 0 0 rest).
Qed.

Lemma a2b_loop_pad (quad_pos : nat) (leftchar pads : Z) (rest : bytes) :
  a2b_loop quad_pos leftchar pads (BASE64_PAD :: rest) =
    if (2 <=? quad_pos)%nat then
      if 4 <=? Z.of_nat quad_pos + (pads + 1) then Some []
      else a2b_loop quad_pos leftchar (pads + 1) rest
    else a2b_loop quad_pos leftchar pads rest.
Proof. reflexivity. Qed.

Lemma a2b_b2a_base64 (bin : bytes) :
  Forall octet bin → a2b_base64 (b2a_base64 bin) = Some bin.
Proof.
  unfold a2b_base64.
  remember (length bin) as n eqn:Hn. revert bin Hn.
  induction n as [n IH] using lt_wf_ind. intros bin -> Hbin.
  destruct bin as [|a [|b [|c bin]]]; [done|..].
  - (* one octet left: two characters and two pads *)
    apply Forall_cons in Hbin as [Ha _].
    destruct (first_octet a 0 Ha) as ((Hs1 & Hs2) & Ho1 & _); [done|].
    cbv zeta in *. change (Z.shiftr 0 4) with 0 in *.
    rewrite Z.lor_0_r in *.
    cbn [b2a_base64]. rewrite !a2b_loop_char, !a2b_loop_pad by done.
    cbn. by rewrite Ho1.
  - (* two octets left: three characters and one pad *)
    apply Forall_cons in Hbin as [Ha Hbin].
    apply Forall_cons in Hbin as [Hb _].
    destruct (first_octet a b Ha Hb) as ((Hs1 & Hs2) & Ho1 & Hl1).
    destruct (second_octet b 0 Hb) as (Hs3 & Ho2 & _); [done|].
    cbv zeta in *. change (Z.shiftr 0 6) with 0 in *.
    rewrite Z.lor_0_r in *.
    cbn [b2a_base64]. rewrite !a2b_loop_char, !a2b_loop_pad by done.
    cbn. by rewrite Ho1, Hl1, Ho2.
  - (* a full quad, then the rest *)
    apply Forall_cons in Hbin as [Ha Hbin].
    apply Forall_cons in Hbin as [Hb Hbin].
    apply Forall_cons in Hbin as [Hc Hbin].
    cbn [b2a_base64]. rewrite a2b_loop_quad by done.
    rewrite (IH (length bin)); [done| |done|done].
    cbn [length]. lia.
Qed.

Lemma b2a_base64_ascii (bin : bytes) :
  Forall (λ c, 0 ≤ c < 128) (b2a_base64 bin).
Proof.
  remember (length bin) as n eqn:Hn. revert bin Hn.
  induction n as [n IH] using lt_wf_ind. intros bin ->.
  destruct bin as [|a [|b [|c bin]]]; cbn [b2a_base64];
    repeat apply Forall_cons_2; try apply b2a_ascii;
    try (apply Forall_nil_2); try (by vm_compute).
  apply (IH (length bin)); [cbn [length]; lia|done].
Qed.

(** [b64decode(b64encode(s)) == s] *)
Theorem b64decode_b64encode (s : bytes) :
  Forall octet s → b64decode (b64encode s) = inr s.
Proof.
  intros Hs. unfold b64decode, b64encode.
  rewrite a2b_b2a_base64 by done.
  assert (forallb (λ c, c <? 128) (b2a_base64 s) = true) as ->; [|done].
  apply forallb_forall. intros c Hc%list_elem_of_In.
  pose proof (b2a_base64_ascii s) as H. rewrite Forall_forall in H.
  apply Z.ltb_lt, H, Hc.
Qed.

End Base64Facts.

(** ** Running the methods *)

Arguments codes : simpl never.

Ltac munfold :=
  unfold when, print, try_except, mbind, M_bind, bind, mret, M_ret, ret, raise,
    get, put, emit in *.

Ltac by_verbose self := unfold verbose_log; by destruct (verbose self).

Section Run.

Context (env : Env).

(** *** The dispatch of [_handle_message] *)

Lemma handle_message_discover now sender :
  _handle_message env now DISCOVERY_MESSAGE sender
  = _respond_to_discovery env sender.
Proof. reflexivity. Qed.

Lemma handle_message_device now payload sender :
  _handle_message env now (DEVICE_PREFIX ++ payload) sender
  = _handle_device_response now (DEVICE_PREFIX ++ payload) sender.
Proof.
  unfold _handle_message.
  rewrite bool_decide_eq_false_2 by (vm_compute; discriminate).
  reflexivity.
Qed.

Lemma handle_message_clipboard now payload sender :
  _handle_message env now (CLIPBOARD_PREFIX ++ payload) sender
  = _handle_clipboard env (CLIPBOARD_PREFIX ++ payload) sender.
Proof.
  unfold _handle_message.
  rewrite bool_decide_eq_false_2 by (vm_compute; discriminate).
  reflexivity.
Qed.

Lemma handle_message_ack now payload sender :
  _handle_message env now (ACK_PREFIX ++ payload) sender
  = _handle_ack (ACK_PREFIX ++ payload) sender.
Proof.
  unfold _handle_message.
  rewrite bool_decide_eq_false_2 by (vm_compute; discriminate).
  reflexivity.
Qed.

Lemma handle_message_heartbeat now sender :
  _handle_message env now HEARTBEAT_MESSAGE sender
  = _handle_heartbeat now sender.
Proof. reflexivity. Qed.

(** *** Sending *)

Lemma encode_ack_received :
  Utf8.encode (ACK_PREFIX ++ codes "RECEIVED")
  = Some (ACK_PREFIX ++ codes "RECEIVED").
Proof. by vm_compute. Qed.

Lemma send_to_run message data address s :
  Utf8.encode message = Some data →
  _send_to env message address s
  = (Returned tt, s,
     Sendto data address (port s)
     :: (if sendto_raises env data address
         then verbose_log s (SendError OSError) else [])).
Proof.
  intros Hm. unfold _send_to, str_encode, socket_sendto.
  rewrite Hm. munfold. cbn.
  destruct (sendto_raises env data address); cbn; [|done].
  by_verbose s.
Qed.

(** Whatever is sent, and however the sending ends, [_send_to] returns and
    leaves the daemon as it was. *)
Lemma send_to_state message address s :
  ∃ t, _send_to env message address s = (Returned tt, s, t)
       ∧ copy_calls t = [].
Proof.
  destruct (Utf8.encode message) as [data|] eqn:Hm.
  - rewrite (send_to_run _ _ _ _ Hm). eexists; split; [done|].
    destruct (sendto_raises env data address); [|done].
    unfold verbose_log. by destruct (verbose s).
  - unfold _send_to, str_encode. rewrite Hm. munfold. cbn.
    destruct (verbose s); by eexists.
Qed.

(** The answer to a discovery request is the frame of an announce, with the
    platform "Linux" and the host's name, sent to the asking address alone. *)
Lemma respond_to_discovery_run sender s frame data :
  encode (DeviceAnnounce (codes "Linux")
            (if bool_decide (node env = []) then codes "Linux" else node env))
  = Some frame →
  Utf8.encode frame = Some data →
  _respond_to_discovery env sender s
  = (Returned tt, s,
     Sendto data sender (port s)
     :: (if sendto_raises env data sender
         then verbose_log s (SendError OSError) else [])
     ++ verbose_log s (RespondedToDiscovery sender)).
Proof.
  intros Hframe%(inj Some) Hdata. subst frame.
  unfold _respond_to_discovery. cbv zeta.
  unfold mbind, M_bind, bind.
  rewrite (send_to_run _ data) by exact Hdata.
  munfold. cbn. unfold verbose_log.
  destruct (verbose s); cbn; [done|]. by rewrite app_nil_r.
Qed.

Lemma broadcast_run message data s :
  Utf8.encode message = Some data →
  _broadcast env message s
  = (Returned tt, s,
     Sendto data BROADCAST_ADDRESS (port s)
     :: (if sendto_raises env data BROADCAST_ADDRESS
         then verbose_log s (BroadcastError OSError) else [])).
Proof.
  intros Hm. unfold _broadcast, str_encode, socket_sendto.
  rewrite Hm. munfold. cbn.
  destruct (sendto_raises env data BROADCAST_ADDRESS); cbn; [|done].
  by_verbose s.
Qed.

(** *** The handlers *)

Lemma handle_clipboard_run payload sender s :
  _handle_clipboard env (CLIPBOARD_PREFIX ++ payload) sender s
  = match payload_text payload with
    | inl e => (Returned tt, s, verbose_log s (ClipboardError e))
    | inr content => applied env sender content s
    end.
Proof.
  unfold _handle_clipboard, payload_text, b64decode, bytes_decode, applied.
  rewrite drop_prefix. munfold. cbn.
  destruct (Base64.b64decode payload) as [[]|raw]; cbn;
    [by_verbose s..|].
  destruct (Utf8.decode raw) as [content|]; cbn; [|by_verbose s].
  case_bool_decide as Hne; case_bool_decide as Heq; try done; cbn.
  unfold pyperclip_copy. munfold. cbn.
  destruct (copy_raises env content); cbn; [by_verbose s|].
  by rewrite (send_to_run _ _ _ _ encode_ack_received).
Qed.

Lemma handle_device_response_run now payload sender s :
  _handle_device_response now (DEVICE_PREFIX ++ payload) sender s
  = match split PIPE payload with
    | p0 :: p1 :: _ =>
        let device := mkDevice sender p0 p1 now in
        (Returned tt,
         with_devices (<[sender := device]> (discovered_devices s)) s,
         [Print (DeviceDiscovered (Device_str device))])
    | _ => (Returned tt, s, [])
    end.
Proof.
  unfold _handle_device_response. rewrite drop_prefix.
  by destruct (split PIPE payload) as [|p0 [|p1 parts]]; munfold; cbn.
Qed.

Lemma handle_ack_run payload sender s :
  _handle_ack (ACK_PREFIX ++ payload) sender s
  = (Returned tt, s, verbose_log s (AckFrom sender payload)).
Proof.
  unfold _handle_ack. rewrite drop_prefix. munfold. cbn. by_verbose s.
Qed.

Lemma handle_heartbeat_run now sender s :
  _handle_heartbeat now sender s
  = match discovered_devices s !! sender with
    | Some device =>
        (Returned tt,
         with_devices (<[sender := touched now device]> (discovered_devices s)) s,
         [])
    | None => (Returned tt, s, [])
    end.
Proof.
  unfold _handle_heartbeat. munfold. cbn.
  by destruct (discovered_devices s !! sender).
Qed.

Lemma respond_to_discovery_state sender s :
  ∃ t, _respond_to_discovery env sender s = (Returned tt, s, t)
       ∧ copy_calls t = [].
Proof.
  unfold _respond_to_discovery. cbv zeta.
  destruct (send_to_state
              (DEVICE_PREFIX ++ codes "Linux|"
               ++ (if bool_decide (node env = []) then codes "Linux"
                   else node env)) sender s) as (t & Ht & Hc).
  unfold mbind, M_bind, bind. rewrite Ht. munfold. cbn.
  destruct (verbose s); cbn; eexists; (split; [done|]).
  - unfold copy_calls in *. by rewrite omap_app, Hc.
  - by rewrite app_nil_r.
Qed.

(** *** [_handle_message] acts on the message [decode] reads *)

Theorem handle_message_run now message sender s :
  _handle_message env now message sender s
  = match decode message with
    | Some Discover => _respond_to_discovery env sender s
    | Some (DeviceAnnounce platform name) =>
        let device := mkDevice sender platform name now in
        (Returned tt,
         with_devices (<[sender := device]> (discovered_devices s)) s,
         [Print (DeviceDiscovered (Device_str device))])
    | Some (ClipboardPayload content) => applied env sender content s
    | Some (Ack status) =>
        (Returned tt, s, verbose_log s (AckFrom sender status))
    | Some Heartbeat => _handle_heartbeat now sender s
    | None => (Returned tt, s, dropped_log s message)
    end.
Proof.
  unfold decode, dropped_log.
  case_bool_decide as Hd; [by subst|].
  destruct (startswith message DEVICE_PREFIX) eqn:Hdev.
  { apply startswith_spec in Hdev as [payload ->].
    rewrite handle_message_device, handle_device_response_run, drop_prefix.
    by destruct (split PIPE payload) as [|p0 [|p1 parts]]. }
  destruct (startswith message CLIPBOARD_PREFIX) eqn:Hclip.
  { apply startswith_spec in Hclip as [payload ->].
    rewrite handle_message_clipboard, handle_clipboard_run, drop_prefix.
    by destruct (payload_text payload). }
  destruct (startswith message ACK_PREFIX) eqn:Hack.
  { apply startswith_spec in Hack as [payload ->].
    by rewrite handle_message_ack, handle_ack_run, drop_prefix. }
  unfold _handle_message.
  rewrite (bool_decide_eq_false_2 _ Hd), Hdev, Hclip, Hack.
  by case_bool_decide.
Qed.

End Run.

(** ** The codec *)

Lemma decode_encode_announce (platform name : pystr) :
  PIPE ∉ platform →
  decode (DEVICE_PREFIX ++ platform ++ [PIPE] ++ name)
  = Some (DeviceAnnounce platform (split PIPE name !!! 0%nat)).
Proof.
  intros Hp. unfold decode.
  rewrite bool_decide_eq_false_2 by (vm_compute; discriminate).
  rewrite startswith_app, drop_prefix.
  change (platform ++ [PIPE] ++ name) with (platform ++ PIPE :: name).
  rewrite split_app_sep by done.
  pose proof (split_nonempty PIPE name).
  by destruct (split PIPE name).
Qed.

Lemma payload_text_b64encode (text : pystr) (raw : bytes) :
  Utf8.encode text = Some raw →
  payload_text (Base64.b64encode raw) = inr text.
Proof.
  intros Henc. unfold payload_text.
  rewrite Base64Facts.b64decode_b64encode
    by (by eapply Utf8Facts.encode_octets).
  by rewrite (Utf8Facts.decode_encode _ _ Henc).
Qed.

Lemma decode_encode_clipboard (text : pystr) (raw : bytes) :
  Utf8.encode text = Some raw →
  decode (CLIPBOARD_PREFIX ++ Base64.b64encode raw)
  = Some (ClipboardPayload text).
Proof.
  intros Henc. unfold decode.
  rewrite bool_decide_eq_false_2 by (vm_compute; discriminate).
  assert (startswith (CLIPBOARD_PREFIX ++ Base64.b64encode raw) DEVICE_PREFIX
          = false) as -> by reflexivity.
  rewrite startswith_app, drop_prefix.
  by rewrite (payload_text_b64encode _ _ Henc).
Qed.

Lemma decode_encode_ack (status : pystr) :
  decode (ACK_PREFIX ++ status) = Some (Ack status).
Proof.
  unfold decode.
  rewrite bool_decide_eq_false_2 by (vm_compute; discriminate).
  assert (startswith (ACK_PREFIX ++ status) DEVICE_PREFIX = false) as ->
      by reflexivity.
  assert (startswith (ACK_PREFIX ++ status) CLIPBOARD_PREFIX = false) as ->
      by reflexivity.
  by rewrite startswith_app, drop_prefix.
Qed.

(** A frame is ASCII but for the fields of an announce and the status of an
    acknowledgment: the frame of a clipboard text is its own UTF-8 encoding. *)
Lemma clipboard_frame_ascii (raw : bytes) :
  Utf8.encode (CLIPBOARD_PREFIX ++ Base64.b64encode raw)
  = Some (CLIPBOARD_PREFIX ++ Base64.b64encode raw).
Proof.
  apply Utf8Facts.encode_ascii, Forall_app. split.
  - apply (bool_decide_unpack _). by vm_compute.
  - apply Base64Facts.b2a_base64_ascii.
Qed.

(** ** The eviction of stale devices *)

(** [stale_timeout = 120] seconds, on timestamps in microseconds. *)
Lemma is_stale_spec (now : datetime) (device : Device) :
  is_stale now 120 device = true ↔ 120 * 1000000 < now - last_seen device.
Proof.
  unfold is_stale, total_seconds. rewrite negb_true_iff.
  rewrite <- not_true_iff_false, Qle_bool_iff.
  unfold Qle. cbn [Qnum Qden]. lia.
Qed.

Lemma is_stale_seconds (now : datetime) (device : Device) :
  is_stale now 120 device = true
  ↔ (120 < total_seconds (now - last_seen device))%Q.
Proof.
  rewrite is_stale_spec. unfold total_seconds, Qlt. cbn [Qnum Qden]. lia.
Qed.

Lemma lookup_foldl_delete (ks : list pystr) (m : gmap pystr Device) (i : pystr) :
  foldl (λ m k, delete k m) m ks !! i
  = if decide (i ∈ ks) then None else m !! i.
Proof.
  revert m. induction ks as [|k ks IH]; intros m; cbn [foldl].
  - by rewrite decide_False by apply not_elem_of_nil.
  - rewrite IH. destruct (decide (i ∈ ks)) as [Hin|Hin].
    + by rewrite decide_True by by apply list_elem_of_further.
    + destruct (decide (i = k)) as [->|Hne].
      * rewrite lookup_delete_eq.
        by rewrite decide_True by apply list_elem_of_here.
      * rewrite lookup_delete_ne by done.
        rewrite decide_False; [done|].
        by intros [?|?]%elem_of_cons.
Qed.

(** The loop of [_cleanup_stale_devices], on addresses that are in the table
    and all different. *)
Lemma cleanup_loop (items : list (pystr * Device)) (s : Daemon) :
  NoDup items.*1 →
  (∀ k d, (k, d) ∈ items → discovered_devices s !! k = Some d) →
  for_each items.*1
    (λ addr,
      self ← get;
      let device := discovered_devices self !! addr in
      put (with_devices (delete addr (discovered_devices self)) self);;
      match device with
      | Some device => print (DeviceDisconnected (name device))
      | None => mret tt
      end) s
  = (Returned tt,
     with_devices (foldl (λ m k, delete k m) (discovered_devices s) items.*1) s,
     (λ item, Print (DeviceDisconnected (name item.2))) <$> items).
Proof.
  revert s. induction items as [|[k d] items IH]; intros s Hnd Hin.
  - by destruct s.
  - cbn [fmap list_fmap fst] in *. apply NoDup_cons in Hnd as [Hk Hnd].
    cbn [for_each]. munfold. cbn.
    rewrite (Hin k d) by apply list_elem_of_here. cbn.
    rewrite IH; [done|done|].
    intros k' d' Hin'. cbn.
    rewrite lookup_delete_ne.
    + apply Hin. by apply list_elem_of_further.
    + intros ->. apply Hk. by apply (list_elem_of_fmap_2 fst) in Hin'.
Qed.

(** The cleanup does the same to the table in whatever order the dict gives
    its items, and prints the lines of the stale peers in that order. *)
Lemma cleanup_in_any_order (now : datetime) (items : list (pystr * Device))
    (s : Daemon) :
  items ≡ₚ map_to_list (discovered_devices s) →
  cleanup_stale_items now items s
  = (Returned tt,
     with_devices
       (filter (λ item, is_stale now 120 item.2 = false) (discovered_devices s)) s,
     (λ item, Print (DeviceDisconnected (name item.2)))
       <$> filter (λ item, is_stale now 120 item.2 = true) items).
Proof.
  intros Hperm.
  assert (∀ k d, (k, d) ∈ items ↔ discovered_devices s !! k = Some d) as Hin.
  { intros k d. by rewrite Hperm, elem_of_map_to_list. }
  unfold cleanup_stale_items. cbv zeta.
  set (stale := filter _ items).
  rewrite cleanup_loop.
  - do 2 f_equal. f_equal.
    apply map_eq. intros i.
    rewrite lookup_foldl_delete, map_lookup_filter.
    destruct (discovered_devices s !! i) as [d|] eqn:Hi; cbn.
    + destruct (is_stale now 120 d) eqn:Hd.
      * rewrite decide_True, option_guard_False; [done|done|].
        apply (list_elem_of_fmap_2' fst _ (i, d)); [|done].
        apply list_elem_of_filter. split; [done|]. by apply Hin.
      * rewrite decide_False, option_guard_True; [done|done|].
        intros ([k d'] & -> & Hst)%list_elem_of_fmap.
        apply list_elem_of_filter in Hst as [Hst Hk].
        apply Hin in Hk. cbn in *. congruence.
    + case_decide as Hk; [|done]. exfalso.
      apply list_elem_of_fmap in Hk as ([k d'] & -> & Hk).
      apply list_elem_of_filter in Hk as [_ Hk].
      apply Hin in Hk. cbn in *. congruence.
  - apply (sublist_NoDup _ items.*1); [|apply fmap_sublist, sublist_filter].
    rewrite Hperm. apply NoDup_fst_map_to_list.
  - intros k d [_ Hk]%list_elem_of_filter. by apply Hin.
Qed.

Lemma cleanup_stale_devices_run (now : datetime) (s : Daemon) :
  _cleanup_stale_devices now s
  = (Returned tt,
     with_devices
       (filter (λ item, is_stale now 120 item.2 = false) (discovered_devices s)) s,
     (λ item, Print (DeviceDisconnected (name item.2)))
       <$> filter (λ item, is_stale now 120 item.2 = true)
                  (map_to_list (discovered_devices s))).
Proof.
  unfold _cleanup_stale_devices.
  unfold mbind at 1, M_bind at 1, bind at 1, get at 1.
  rewrite cleanup_in_any_order by done. by rewrite app_nil_l.
Qed.

(** ** The loops *)

Section Loops.

Context (env : Env).

(** No frame makes [_handle_message] raise, and none touches the flags or
    the port. *)
Lemma handle_message_returns now message sender s :
  ∃ s' t, _handle_message env now message sender s = (Returned tt, s', t)
          ∧ running s' = running s ∧ verbose s' = verbose s
          ∧ port s' = port s.
Proof.
  rewrite handle_message_run.
  destruct (decode message) as [[| | | |]|].
  - destruct (respond_to_discovery_state env sender s) as (t & -> & _).
    by eexists _, _.
  - by eexists _, _.
  - unfold applied. case_bool_decide; by eexists _, _.
  - by eexists _, _.
  - rewrite handle_heartbeat_run.
    destruct (discovered_devices s !! sender); by eexists _, _.
  - by eexists _, _.
Qed.

Lemma listen_loop_body_datagram now data sender message s :
  Utf8.decode (take (Z.to_nat BUFFER_SIZE) data) = Some message →
  _listen_loop_body env now (RecvFrom data sender) s
  = _handle_message env now message sender s.
Proof.
  intros Hdec.
  destruct (handle_message_returns now message sender s)
    as (s' & t & Hrun & _).
  unfold _listen_loop_body, socket_recvfrom, bytes_decode.
  munfold. cbn. rewrite Hdec. cbn. by rewrite Hrun.
Qed.

(** Whatever is received, a turn of the listening loop returns and leaves
    [running] as it was: only [stop()] ends the loop. *)
Lemma listen_loop_body_returns now r s :
  ∃ s' t, _listen_loop_body env now r s = (Returned tt, s', t)
          ∧ running s' = running s.
Proof.
  destruct r as [data sender| |].
  - destruct (Utf8.decode (take (Z.to_nat BUFFER_SIZE) data))
      as [message|] eqn:Hdec.
    + rewrite (listen_loop_body_datagram _ _ _ _ _ Hdec).
      destruct (handle_message_returns now message sender s)
        as (s' & t & -> & Hr & _).
      by eexists _, _.
    + unfold _listen_loop_body, socket_recvfrom, bytes_decode.
      munfold. cbn. rewrite Hdec. cbn.
      destruct (running s && verbose s); by eexists _, _.
  - by eexists _, _.
  - unfold _listen_loop_body. munfold. cbn.
    destruct (running s && verbose s); by eexists _, _.
Qed.

Lemma listen_loop_cons now r inbox s s' t :
  running s = true →
  _listen_loop_body env now r s = (Returned tt, s', t) →
  _listen_loop env ((now, r) :: inbox) s
  = let '(o, s'', t') := _listen_loop env inbox s' in (o, s'', t ++ t').
Proof.
  intros Hrun Hbody. cbn [_listen_loop]. munfold.
  cbv beta iota zeta. rewrite Hrun. cbv beta iota zeta. rewrite Hbody.
  by destruct (_listen_loop env inbox s') as [[o s''] t'].
Qed.

Lemma broadcast_clipboard_run text raw s :
  Utf8.encode text = Some raw →
  _broadcast_clipboard env text s
  = (Returned tt, s,
     Sendto (CLIPBOARD_PREFIX ++ Base64.b64encode raw) BROADCAST_ADDRESS (port s)
     :: (if sendto_raises env (CLIPBOARD_PREFIX ++ Base64.b64encode raw)
              BROADCAST_ADDRESS
         then verbose_log s (BroadcastError OSError) else [])
     ++ [Print (Sent (preview 30 text))]).
Proof.
  intros Henc. unfold _broadcast_clipboard, str_encode. rewrite Henc.
  cbv zeta. unfold mbind, M_bind, bind, mret, M_ret, ret. cbn.
  by rewrite (broadcast_run _ _ _ _ (clipboard_frame_ascii raw)).
Qed.

Lemma clipboard_monitor_loop_body_run text s :
  _clipboard_monitor_loop_body env (Pasted text) s
  = if bool_decide (text = []) || bool_decide (text = last_clipboard s)
    then (Returned tt, s, [])
    else
      match Utf8.encode text with
      | Some raw =>
          let '(o, s', t) :=
            _broadcast_clipboard env text (with_clipboard text s) in
          (o, s', t)
      | None =>
          (Returned tt, with_clipboard text s,
           verbose_log s (MonitorError UnicodeEncodeError))
      end.
Proof.
  unfold _clipboard_monitor_loop_body, pyperclip_paste.
  munfold. cbn.
  case_bool_decide as Hempty; cbn; [done|].
  case_bool_decide as Hne; case_bool_decide as Heq; try done; cbn.
  destruct (Utf8.encode text) as [raw|] eqn:Henc.
  - by rewrite (broadcast_clipboard_run _ _ _ Henc).
  - unfold _broadcast_clipboard, str_encode. rewrite Henc.
    munfold. cbn. by_verbose s.
Qed.

End Loops.

(** * The claims *)

(** ** C1: codec round trip *)

(** C1, as amended. For every message of the five kinds whose announce
    fields hold no '|', decoding the encoded frame gives the message back.
    [encode m = Some frame] says that [m] has a frame: the text of a
    clipboard message can be encoded in UTF-8. *)
Theorem codec_roundtrip (m : WireMessage) (frame : pystr) :
  pipe_free m → encode m = Some frame → decode frame = Some m.
Proof.
  destruct m as [|platform name|text|status|]; cbn [pipe_free encode].
  - by intros _ [= <-].
  - intros [Hp Hn] [= <-].
    etrans; [by apply decode_encode_announce|].
    by rewrite (split_no_sep _ _ Hn).
  - intros _. destruct (Utf8.encode text) as [raw|] eqn:Henc; [|done].
    intros [= <-]. by apply decode_encode_clipboard.
  - intros _ [= <-]. apply decode_encode_ack.
  - by intros _ [= <-].
Qed.

Lemma codec_roundtrip_witness :
  pipe_free (DeviceAnnounce (codes "Linux") (codes "hostB"))
  ∧ decode (DEVICE_PREFIX ++ codes "Linux|hostB")
    = Some (DeviceAnnounce (codes "Linux") (codes "hostB")).
Proof.
  assert (pipe_free (DeviceAnnounce (codes "Linux") (codes "hostB"))) as Hfree
      by (split; apply (bool_decide_unpack _); by vm_compute).
  split; [exact Hfree|].
  exact (codec_roundtrip (DeviceAnnounce (codes "Linux") (codes "hostB"))
           (DEVICE_PREFIX ++ codes "Linux|hostB") Hfree eq_refl).
Defined.

(** C1, as stated, fails: [split('|')] has no maximum count, so a name with
    a '|' loses everything from its first '|'. The announce of the host
    "my|host" is read, and recorded, as the host "my". *)
Lemma codec_roundtrip_pipe_in_name :
  let m := DeviceAnnounce (codes "Linux") (codes "my|host") in
  (encode m ≫= decode) = Some (DeviceAnnounce (codes "Linux") (codes "my"))
  ∧ (encode m ≫= decode) ≠ Some m
  ∧ (name <$> discovered_devices
       (exec (_handle_message hostB 0 (DEVICE_PREFIX ++ codes "Linux|my|host")
                peerA) started).1 !! peerA)
    = Some (codes "my").
Proof.
  split; [by vm_compute|]. split; [by vm_compute|]. by vm_compute.
Qed.

(** ** C2: idempotent apply *)

(** C2, as amended. Handling the frame of a clipboard text twice in a row,
    from a snapshot that differs from the text: the first handling sets the
    snapshot and calls [pyperclip.copy] once; when that call returns it sends
    one acknowledgment to the sender, when it raises it sends none; the
    second handling changes nothing and calls nothing, in the one case as in
    the other. *)
Theorem idempotent_apply (env : Env) (now1 now2 : datetime) (s : Daemon)
    (text frame sender : pystr) :
  encode (ClipboardPayload text) = Some frame →
  text ≠ last_clipboard s →
  let first := exec (_handle_message env now1 frame sender) s in
  first.1 = with_clipboard text s
  ∧ copy_calls first.2 = [text]
  ∧ sendto_calls first.2
    = (if copy_raises env text then []
       else [(ACK_PREFIX ++ codes "RECEIVED", sender, port s)])
  ∧ exec (_handle_message env now2 frame sender) first.1 = (first.1, []).
Proof.
  intros Henc Hne. cbv zeta. unfold exec.
  assert (decode frame = Some (ClipboardPayload text)) as Hdec.
  { cbn in Henc. destruct (Utf8.encode text) as [raw|] eqn:Hraw; [|done].
    injection Henc as <-. by apply decode_encode_clipboard. }
  rewrite !handle_message_run, Hdec. unfold applied.
  rewrite bool_decide_eq_false_2 by done. cbn.
  rewrite bool_decide_eq_true_2 by done. unfold verbose_log.
  repeat split;
    by destruct (copy_raises env text),
                (sendto_raises env (ACK_PREFIX ++ codes "RECEIVED") sender),
                (verbose s).
Qed.

Lemma idempotent_apply_witness :
  let frame := CLIPBOARD_PREFIX ++ codes "aGVsbG8=" in
  let first := exec (_handle_message hostB 1 frame peerA) started in
  copy_calls first.2 = [codes "hello"]
  ∧ sendto_calls first.2 = [(codes "NEXUSCLIP_ACK:RECEIVED", peerA, SYNC_PORT)]
  ∧ exec (_handle_message hostB 2 frame peerA) first.1 = (first.1, []).
Proof.
  assert (codes "hello" ≠ last_clipboard started) as Hne by (by vm_compute).
  destruct (idempotent_apply hostB 1 2 started (codes "hello")
              (CLIPBOARD_PREFIX ++ codes "aGVsbG8=") peerA
              eq_refl Hne) as (_ & Hcopy & Hsend & Hsecond).
  exact (conj Hcopy (conj Hsend Hsecond)).
Defined.

(** C2, as stated, fails: on a host where [pyperclip.copy] raises, the frame
    of "hello" is taken as the snapshot and acknowledged by neither
    handling; the two handlings make one call of [pyperclip.copy] and no
    call of [sendto]. *)
Lemma idempotent_apply_copy_raises :
  let frame := CLIPBOARD_PREFIX ++ codes "aGVsbG8=" in
  let first := exec (_handle_message headless 1 frame peerA) started in
  let second := exec (_handle_message headless 2 frame peerA) first.1 in
  encode (ClipboardPayload (codes "hello")) = Some frame
  ∧ codes "hello" ≠ last_clipboard started
  ∧ last_clipboard first.1 = codes "hello"
  ∧ copy_calls (first.2 ++ second.2) = [codes "hello"]
  ∧ sendto_calls (first.2 ++ second.2) = [].
Proof. cbv zeta. repeat split; by vm_compute. Qed.

(** ** C3: malformed payload safety *)

(** C3, as amended. A frame with the clipboard prefix whose remainder does
    not decode ([base64.b64decode] raises [e], or its bytes are not UTF-8
    and [decode('utf-8')] raises [e]) is dropped: [_handle_message] returns,
    the daemon (snapshot, peer table, flags) is as before, nothing is copied
    to the clipboard and nothing is sent; all there is, in verbose mode, is
    the printed exception. The listening loop, when such a frame arrives as
    a datagram, goes on with the rest of its input. *)
Theorem malformed_payload_dropped (env : Env) (now : datetime) (s : Daemon)
    (message sender : pystr) (e : Exn) :
  startswith message CLIPBOARD_PREFIX = true →
  payload_text (drop (length CLIPBOARD_PREFIX) message) = inl e →
  let log := verbose_log s (ClipboardError e) in
  _handle_message env now message sender s = (Returned tt, s, log)
  ∧ copy_calls log = [] ∧ sendto_calls log = []
  ∧ ∀ data inbox,
      running s = true →
      Utf8.decode (take (Z.to_nat BUFFER_SIZE) data) = Some message →
      _listen_loop env ((now, RecvFrom data sender) :: inbox) s
      = let '(o, s', t) := _listen_loop env inbox s in (o, s', log ++ t).
Proof.
  intros Hpre Hbad. cbv zeta.
  assert (_handle_message env now message sender s
          = (Returned tt, s, verbose_log s (ClipboardError e))) as Hrun.
  { apply startswith_spec in Hpre as [payload ->].
    rewrite drop_prefix in Hbad.
    by rewrite handle_message_clipboard, handle_clipboard_run, Hbad. }
  split; [done|]. split; [by_verbose s|]. split; [by_verbose s|].
  intros data inbox Hrunning Hdec.
  apply listen_loop_cons; [done|].
  by rewrite (listen_loop_body_datagram _ _ _ _ _ _ Hdec).
Qed.

Lemma malformed_payload_dropped_witness :
  let message := CLIPBOARD_PREFIX ++ codes "aGVsbG8" in
  startswith message CLIPBOARD_PREFIX = true
  ∧ payload_text (drop (length CLIPBOARD_PREFIX) message) = inl BinasciiError
  ∧ _handle_message hostB 1 message peerA started
    = (Returned tt, started, [Print (ClipboardError BinasciiError)]).
Proof.
  split; [reflexivity|]. split; [reflexivity|].
  exact (proj1 (malformed_payload_dropped hostB 1 started
                  (CLIPBOARD_PREFIX ++ codes "aGVsbG8") peerA BinasciiError
                  eq_refl eq_refl)).
Defined.

(** C3, as stated, fails: [b64decode] does not validate, it skips every
    character outside the alphabet. The remainder "!!!!" is the Base64 of
    nothing, it has no character of the alphabet at all; it is read as the
    empty text, which is written over a snapshot "x" and acknowledged. *)
Lemma malformed_payload_applied :
  let payload := codes "!!!!" in
  let s := with_clipboard (codes "x") started in
  (∀ raw, Base64.b64encode raw ≠ payload)
  ∧ Forall (λ ch, Base64.a2b ch = None ∧ ch ≠ Base64.BASE64_PAD) payload
  ∧ exec (_handle_message hostB 1 (CLIPBOARD_PREFIX ++ payload) peerA) s
    = (with_clipboard [] s,
       [ClipboardCopy [];
        Sendto (codes "NEXUSCLIP_ACK:RECEIVED") peerA SYNC_PORT;
        Print (Received [])]).
Proof.
  cbv zeta. split; [|split].
  - assert (∀ v, Base64.b2a v ≠ 33) as Hb2a.
    { intros v. unfold Base64.b2a. generalize (Z.to_nat v) as n. intros n.
      do 64 (destruct n as [|n]; [by vm_compute|]). by destruct n. }
    intros [|a [|b [|c raw]]]; [done|..]; cbn [Base64.b64encode Base64.b2a_base64];
      intros [= H _]; by apply Hb2a in H.
  - by repeat constructor.
  - by vm_compute.
Qed.

(** ** C4: what refreshes [last_seen] *)

(** C4, as amended. For a peer in the table and a frame from its address:
    when the frame reads as a heartbeat or as an announce, the peer's
    [last_seen] is the time of the handling; for every other frame (a
    clipboard frame, an acknowledgment, a discovery request, anything else)
    the peer table is as before, and with it the peer's [last_seen]. *)
Theorem last_seen_refreshed_by (env : Env) (now : datetime) (s : Daemon)
    (message sender : pystr) (device : Device) :
  discovered_devices s !! sender = Some device →
  let s' := (exec (_handle_message env now message sender) s).1 in
  if refreshes_last_seen (decode message)
  then last_seen <$> discovered_devices s' !! sender = Some now
  else discovered_devices s' = discovered_devices s.
Proof.
  intros Hdev. cbv zeta. unfold exec. rewrite handle_message_run.
  destruct (decode message) as [[| | | |]|]; cbn [refreshes_last_seen].
  - by destruct (respond_to_discovery_state env sender s) as (t & -> & _).
  - cbn. by rewrite lookup_insert_eq.
  - unfold applied. by case_bool_decide.
  - done.
  - rewrite handle_heartbeat_run, Hdev. cbn. by rewrite lookup_insert_eq.
  - done.
Qed.

Lemma last_seen_refreshed_by_witness :
  let s := with_devices {[ peerA := mkDevice peerA (codes "Android")
                                      (codes "Pixel") 0 ]} started in
  last_seen <$> discovered_devices
    (exec (_handle_message hostB 7000000 HEARTBEAT_MESSAGE peerA) s).1 !! peerA
  = Some 7000000.
Proof.
  exact (last_seen_refreshed_by hostB 7000000
           (with_devices {[ peerA := mkDevice peerA (codes "Android")
                                       (codes "Pixel") 0 ]} started)
           HEARTBEAT_MESSAGE peerA
           (mkDevice peerA (codes "Android") (codes "Pixel") 0)
           (lookup_singleton_eq _ _)).
Defined.

(** C4, as stated, fails: an acknowledgment, a clipboard frame and a
    discovery request from a known peer leave its [last_seen] where it
    was. *)
Lemma last_seen_not_refreshed :
  let s := with_devices {[ peerA := mkDevice peerA (codes "Android")
                                      (codes "Pixel") 0 ]} started in
  let last_seen_after message :=
    last_seen <$> discovered_devices
      (exec (_handle_message hostB 7000000 message peerA) s).1 !! peerA in
  last_seen_after (ACK_PREFIX ++ codes "RECEIVED") = Some 0
  ∧ last_seen_after (CLIPBOARD_PREFIX ++ codes "aGVsbG8=") = Some 0
  ∧ last_seen_after DISCOVERY_MESSAGE = Some 0.
Proof. cbv zeta. repeat split; by vm_compute. Qed.

(** ** C5: dedup broadcast *)

(** C5. Of two polls in a row that read the same text, the second changes
    nothing and calls nothing, whatever the text and the daemon; and the
    first, when the text is not empty and differs from the snapshot, sets the
    snapshot to the text and hands one datagram to the socket, the frame of
    the text, for the broadcast address. *)
Theorem dedup_broadcast (env : Env) (s : Daemon) (text : pystr) :
  let poll := _clipboard_monitor_loop_body env (Pasted text) in
  let first := exec poll s in
  exec poll first.1 = (first.1, [])
  ∧ ∀ frame,
      text ≠ [] → text ≠ last_clipboard s →
      encode (ClipboardPayload text) = Some frame →
      first.1 = with_clipboard text s
      ∧ sendto_calls first.2 = [(frame, BROADCAST_ADDRESS, port s)].
Proof.
  cbv zeta. unfold exec.
  rewrite (clipboard_monitor_loop_body_run env text s).
  destruct (decide (text = [])) as [->|Hempty].
  { split; [done|]. by intros frame []. }
  rewrite (bool_decide_eq_false_2 _ Hempty). cbn [orb].
  destruct (decide (text = last_clipboard s)) as [Heq|Hne].
  { rewrite (bool_decide_eq_true_2 _ Heq). cbn.
    rewrite clipboard_monitor_loop_body_run.
    rewrite (bool_decide_eq_false_2 _ Hempty), (bool_decide_eq_true_2 _ Heq).
    split; [done|]. by intros frame _ []. }
  rewrite (bool_decide_eq_false_2 _ Hne).
  destruct (Utf8.encode text) as [raw|] eqn:Henc.
  - rewrite (broadcast_clipboard_run _ _ _ _ Henc). cbn.
    rewrite clipboard_monitor_loop_body_run. cbn.
    rewrite (bool_decide_eq_true_2 (text = text)) by done.
    rewrite orb_true_r. split; [done|].
    intros frame _ _. rewrite Henc. intros Hframe%(inj Some). subst frame.
    split; [done|]. unfold verbose_log. cbn [verbose with_clipboard].
    by destruct (sendto_raises env _ _), (verbose s).
  - cbn. rewrite clipboard_monitor_loop_body_run. cbn.
    rewrite (bool_decide_eq_true_2 (text = text)) by done.
    rewrite orb_true_r. split; [done|].
    intros frame _ _. by rewrite Henc.
Qed.

Lemma dedup_broadcast_witness :
  let poll := _clipboard_monitor_loop_body hostB (Pasted (codes "hello")) in
  sendto_calls (exec poll started).2
  = [(codes "NEXUSCLIP_CLIP:aGVsbG8=", BROADCAST_ADDRESS, SYNC_PORT)]
  ∧ exec poll (exec poll started).1 = ((exec poll started).1, []).
Proof.
  destruct (dedup_broadcast hostB started (codes "hello")) as [Hsecond Hfirst].
  split; [|exact Hsecond].
  refine (proj2 (Hfirst (codes "NEXUSCLIP_CLIP:aGVsbG8=") _ _ eq_refl));
    by vm_compute.
Defined.

(** ** C6: stale eviction *)

(** C6. With its timeout of 120 seconds, [_cleanup_stale_devices] leaves in
    the table the peers that are not stale, takes out the stale ones, and
    prints one "disconnected" line for each peer it takes out, with the
    peer's name, and nothing else; a peer is stale when [now - last_seen] is
    more than 120 seconds, strictly. Nothing else of the daemon changes. The
    lines are the lines of the stale peers whatever the order of the dict's
    items, and come in that order. *)
Theorem stale_eviction (now : datetime) (s : Daemon) :
  let fresh :=
    filter (λ item, is_stale now 120 item.2 = false) (discovered_devices s) in
  let stale := filter (λ item : pystr * Device, is_stale now 120 item.2 = true) in
  let line (item : pystr * Device) := Print (DeviceDisconnected (name item.2)) in
  let after := exec (_cleanup_stale_devices now) s in
  after.1 = with_devices fresh s
  ∧ after.2 ≡ₚ line <$> stale (map_to_list (discovered_devices s))
  ∧ (∀ items, items ≡ₚ map_to_list (discovered_devices s) →
       cleanup_stale_items now items s
       = (Returned tt, with_devices fresh s, line <$> stale items))
  ∧ ∀ device,
      is_stale now 120 device = true
      ↔ (120 < total_seconds (now - last_seen device))%Q.
Proof.
  cbv zeta. unfold exec. rewrite cleanup_stale_devices_run. cbn [fst snd].
  split; [done|]. split; [done|].
  split; [|apply is_stale_seconds].
  intros items Hperm. by apply cleanup_in_any_order.
Qed.

(** Two peers announced from 192.168.1.10 and then from 192.168.1.11, both
    stale: with the items in the order of their insertion, the line of the
    first comes first. *)
Lemma stale_eviction_witness :
  let peerB := codes "192.168.1.11" in
  let pixel := mkDevice peerA (codes "Android") (codes "Pixel") 1 in
  let nexus := mkDevice peerB (codes "Android") (codes "Nexus") 2 in
  let s := with_devices {[ peerA := pixel; peerB := nexus ]} started in
  [(peerA, pixel); (peerB, nexus)] ≡ₚ map_to_list (discovered_devices s)
  ∧ (cleanup_stale_items 130000000 [(peerA, pixel); (peerB, nexus)] s).2
    = [Print (DeviceDisconnected (codes "Pixel"));
       Print (DeviceDisconnected (codes "Nexus"))]
  ∧ discovered_devices (exec (_cleanup_stale_devices 130000000) s).1 = ∅.
Proof.
  cbv zeta.
  set (peerB := codes "192.168.1.11").
  set (pixel := mkDevice peerA (codes "Android") (codes "Pixel") 1).
  set (nexus := mkDevice peerB (codes "Android") (codes "Nexus") 2).
  set (s := with_devices {[ peerA := pixel; peerB := nexus ]} started).
  assert ([(peerA, pixel); (peerB, nexus)] ≡ₚ map_to_list (discovered_devices s))
    as Hperm.
  { assert (map_to_list (discovered_devices s)
            = [(peerB, nexus); (peerA, pixel)]) as -> by (by vm_compute).
    apply perm_swap. }
  destruct (stale_eviction 130000000 s) as (Hstate & _ & Hany & _).
  split; [exact Hperm|]. split.
  - by rewrite (Hany _ Hperm).
  - rewrite Hstate. by vm_compute.
Defined.

(** ** C7: silent heartbeat *)

(** C7. A heartbeat from an address that is not in the peer table leaves the
    daemon, and so the peer table, exactly as it was, and calls nothing. *)
Theorem silent_heartbeat (env : Env) (now : datetime) (s : Daemon)
    (sender : pystr) :
  discovered_devices s !! sender = None →
  exec (_handle_message env now HEARTBEAT_MESSAGE sender) s = (s, []).
Proof.
  intros Hnone. unfold exec.
  by rewrite handle_message_heartbeat, handle_heartbeat_run, Hnone.
Qed.

Lemma silent_heartbeat_witness :
  discovered_devices started !! peerA = None
  ∧ exec (_handle_message hostB 1 HEARTBEAT_MESSAGE peerA) started
    = (started, []).
Proof.
  split; [reflexivity|].
  exact (silent_heartbeat hostB 1 started peerA eq_refl).
Defined.

(** ** C8: the "discovered" line *)

(** C8, as amended. Every frame that reads as an announce prints the
    "Device discovered" line, with the device it records, whether or not the
    sender is in the peer table already. *)
Theorem discovered_printed_always (env : Env) (now : datetime) (s : Daemon)
    (message sender platform name : pystr) :
  decode message = Some (DeviceAnnounce platform name) →
  let device := mkDevice sender platform name now in
  exec (_handle_message env now message sender) s
  = (with_devices (<[sender := device]> (discovered_devices s)) s,
     [Print (DeviceDiscovered (Device_str device))]).
Proof.
  intros Hdec. cbv zeta. unfold exec. by rewrite handle_message_run, Hdec.
Qed.

Lemma discovered_printed_always_witness :
  let message := DEVICE_PREFIX ++ codes "Android|Pixel" in
  decode message = Some (DeviceAnnounce (codes "Android") (codes "Pixel"))
  ∧ printed (exec (_handle_message hostB 1 message peerA) started).2
    = [DeviceDiscovered (codes "Pixel (Android) - 192.168.1.10")].
Proof.
  split; [reflexivity|].
  by rewrite (discovered_printed_always hostB 1 started
                (DEVICE_PREFIX ++ codes "Android|Pixel") peerA
                (codes "Android") (codes "Pixel") eq_refl).
Defined.

(** C8, as stated, fails: the second announce from an address prints the
    "Device discovered" line as the first did. *)
Lemma discovered_printed_twice :
  let message := DEVICE_PREFIX ++ codes "Android|Pixel" in
  let first := exec (_handle_message hostB 1 message peerA) started in
  let second := exec (_handle_message hostB 2 message peerA) first.1 in
  discovered_devices first.1 !! peerA
  = Some (mkDevice peerA (codes "Android") (codes "Pixel") 1)
  ∧ printed second.2
    = [DeviceDiscovered (codes "Pixel (Android) - 192.168.1.10")].
Proof. cbv zeta. split; [by vm_compute|by vm_compute]. Qed.

(** The boundary of C6: of two peers last seen 120 seconds and 120.000001
    seconds ago, the first stays and the second goes. *)
Example stale_eviction_boundary :
  let peerB := codes "192.168.1.11" in
  let s := with_devices
             {[ peerA := mkDevice peerA (codes "Android") (codes "Pixel") 1;
                peerB := mkDevice peerB (codes "Android") (codes "Nexus") 0 ]}
             started in
  let after := exec (_cleanup_stale_devices 120000001) s in
  map_to_list (discovered_devices after.1)
  = [(peerA, mkDevice peerA (codes "Android") (codes "Pixel") 1)]
  ∧ after.2 = [Print (DeviceDisconnected (codes "Nexus"))].
Proof. cbv zeta. split; by vm_compute. Qed.

(** ** C9: a frame beyond the buffer size *)

(** C9, as amended. For every clipboard text that UTF-8 can encode, of
    whatever length, [_broadcast_clipboard] returns: nothing checks the
    length of the frame, and the one datagram handed to the socket is the
    whole frame, never a part of it. *)
Theorem broadcast_clipboard_whole_frame (env : Env) (s : Daemon)
    (text frame : pystr) :
  encode (ClipboardPayload text) = Some frame →
  let run := _broadcast_clipboard env text in
  outcome run s = Returned tt
  ∧ (exec run s).1 = s
  ∧ sendto_calls (exec run s).2 = [(frame, BROADCAST_ADDRESS, port s)].
Proof.
  cbn [encode]. destruct (Utf8.encode text) as [raw|] eqn:Henc; [|done].
  intros Hframe%(inj Some). subst frame. cbv zeta.
  unfold outcome, exec. rewrite (broadcast_clipboard_run _ _ _ _ Henc). cbn.
  repeat split. unfold verbose_log.
  by destruct (sendto_raises env _ _), (verbose s).
Qed.

Lemma broadcast_clipboard_whole_frame_witness :
  sendto_calls (exec (_broadcast_clipboard hostB (codes "hello")) started).2
  = [(codes "NEXUSCLIP_CLIP:aGVsbG8=", BROADCAST_ADDRESS, SYNC_PORT)].
Proof.
  exact (proj2 (proj2 (broadcast_clipboard_whole_frame hostB started
                         (codes "hello") (codes "NEXUSCLIP_CLIP:aGVsbG8=")
                         eq_refl))).
Defined.

(** C9, as stated, fails: the frame of a text of 49152 letters has 65551
    octets, more than [BUFFER_SIZE]; the encoding does not fail, the whole
    frame is handed to the socket, and when the socket refuses it the error
    is printed in verbose mode and the text is reported as sent. *)
Lemma oversized_frame_not_refused :
  let text := replicate (Z.to_nat 49152) 97 in
  let frame := CLIPBOARD_PREFIX ++ Base64.b64encode text in
  let run := _broadcast_clipboard hostB text in
  encode (ClipboardPayload text) = Some frame
  ∧ Z.of_nat (length frame) = 65551
  ∧ BUFFER_SIZE < Z.of_nat (length frame)
  ∧ outcome run started = Returned tt
  ∧ sendto_calls (exec run started).2
    = [(frame, BROADCAST_ADDRESS, SYNC_PORT)]
  ∧ printed (exec run started).2
    = [BroadcastError OSError; Sent (replicate 30 97 ++ codes "...")].
Proof.
  cbv zeta.
  split; [apply (bool_decide_unpack _); vm_compute; exact I|].
  do 3 (split; [vm_compute; reflexivity|]).
  split; [apply (bool_decide_unpack _); vm_compute; exact I|].
  vm_compute; reflexivity.
Qed.

(** ** C10: an empty clipboard is not propagated *)

(** C10. A poll that reads the empty string changes nothing, the snapshot
    no more than the rest, and calls nothing, whatever the snapshot holds. *)
Theorem empty_poll_silent (env : Env) (s : Daemon) :
  exec (_clipboard_monitor_loop_body env (Pasted [])) s = (s, []).
Proof.
  unfold exec. by rewrite clipboard_monitor_loop_body_run.
Qed.


(** * The scenarios of the protocol *)

(** Node A asks who is there; node B, the host "hostB", answers A alone
    with its announce; A, handling the answer, gains one peer under B's
    address, with platform "Linux" and name "hostB". *)
Example scenario_discovery :
  let addrA := codes "192.168.1.10" in
  let addrB := codes "192.168.1.11" in
  let answer := codes "NEXUSCLIP_DEVICE:Linux|hostB" in
  sendto_calls (exec (_handle_message hostB 1 DISCOVERY_MESSAGE addrA) started).2
  = [(answer, addrA, SYNC_PORT)]
  ∧ map_to_list (discovered_devices
       (exec (_handle_message hostB 2 answer addrB) started).1)
    = [(addrB, mkDevice addrB (codes "Linux") (codes "hostB") 2)].
Proof. cbv zeta. split; by vm_compute. Qed.

(** A's clipboard changes to "hello": A broadcasts the frame; B applies the
    text and acknowledges to A; A, handling the acknowledgment, copies and
    sends nothing; and B's next poll, reading "hello" from its clipboard,
    does not send it back. *)
Example scenario_hello :
  let addrA := codes "192.168.1.10" in
  let frame := codes "NEXUSCLIP_CLIP:aGVsbG8=" in
  let ack := codes "NEXUSCLIP_ACK:RECEIVED" in
  let poll := _clipboard_monitor_loop_body hostB (Pasted (codes "hello")) in
  let nodeA := exec poll started in
  let nodeB := exec (_handle_message hostB 1 frame addrA) started in
  let nodeA' := exec (_handle_message hostB 2 ack (codes "192.168.1.11")) nodeA.1 in
  sendto_calls nodeA.2 = [(frame, BROADCAST_ADDRESS, SYNC_PORT)]
  ∧ copy_calls nodeB.2 = [codes "hello"]
  ∧ sendto_calls nodeB.2 = [(ack, addrA, SYNC_PORT)]
  ∧ (copy_calls nodeA'.2 = [] ∧ sendto_calls nodeA'.2 = [])
  ∧ exec poll nodeB.1 = (nodeB.1, []).
Proof.
  cbv zeta.
  do 3 (split; [by vm_compute|]).
  split; [split; by vm_compute|by vm_compute].
Qed.

(** * Beyond the claims *)

(** ** More about traces and the codec *)

(** The name the daemon announces: [platform.node() or "Linux"]. *)
Definition device_name (env : Env) : pystr :=
  if bool_decide (node env = []) then codes "Linux" else node env.

(** The answer of [_respond_to_discovery]. *)
Definition discovery_response (env : Env) : pystr :=
  DEVICE_PREFIX ++ codes "Linux|" ++ device_name env.

Lemma sendto_calls_app (t1 t2 : list Event) :
  sendto_calls (t1 ++ t2) = sendto_calls t1 ++ sendto_calls t2.
Proof. apply omap_app. Qed.

Lemma copy_calls_app (t1 t2 : list Event) :
  copy_calls (t1 ++ t2) = copy_calls t1 ++ copy_calls t2.
Proof. apply omap_app. Qed.

Lemma sendto_calls_verbose_log (s : Daemon) (line : LogLine) :
  sendto_calls (verbose_log s line) = [].
Proof. by_verbose s. Qed.

Lemma copy_calls_verbose_log (s : Daemon) (line : LogLine) :
  copy_calls (verbose_log s line) = [].
Proof. by_verbose s. Qed.

Lemma utf8_encode_app (a b : pystr) :
  Utf8.encode (a ++ b)
  = a' ← Utf8.encode a; b' ← Utf8.encode b; Some (a' ++ b').
Proof.
  induction a as [|c a IH]; cbn [app Utf8.encode].
  - by destruct (Utf8.encode b).
  - rewrite IH. destruct (Utf8.encode_char c) as [x|]; [|done].
    destruct (Utf8.encode a) as [a'|]; cbn; [|done].
    destruct (Utf8.encode b) as [b'|]; cbn; [|done].
    by rewrite app_assoc.
Qed.

Lemma split_parts_no_sep (sep : Z) (s : pystr) :
  Forall (λ part, sep ∉ part) (split sep s).
Proof.
  induction s as [|c s IH]; cbn [split].
  - repeat constructor. apply not_elem_of_nil.
  - destruct (Z.eqb_spec c sep) as [->|Hne].
    + constructor; [apply not_elem_of_nil|done].
    + destruct (split sep s) as [|part parts].
      * repeat constructor. by intros [->|[]%elem_of_nil]%elem_of_cons.
      * apply Forall_cons in IH as [Hpart Hparts].
        constructor; [|done]. by intros [->|?]%elem_of_cons.
Qed.

(** ** Sending *)

(** The two sending methods, on every message. *)
Lemma send_calls (env : Env) (message address : pystr)
    (s : Daemon) :
  let to_one := _send_to env message address s in
  let to_all := _broadcast env message s in
  (to_one.1 = (Returned tt, s) ∧ to_all.1 = (Returned tt, s))
  ∧ (copy_calls to_one.2 = [] ∧ copy_calls to_all.2 = [])
  ∧ sendto_calls to_one.2
    = match Utf8.encode message with
      | Some data => [(data, address, port s)]
      | None => []
      end
  ∧ sendto_calls to_all.2
    = match Utf8.encode message with
      | Some data => [(data, BROADCAST_ADDRESS, port s)]
      | None => []
      end.
Proof.
  cbv zeta. destruct (Utf8.encode message) as [data|] eqn:Hm.
  - rewrite (send_to_run _ _ _ _ _ Hm), (broadcast_run _ _ _ _ Hm). cbn.
    unfold verbose_log.
    by destruct (sendto_raises env data address),
         (sendto_raises env data BROADCAST_ADDRESS), (verbose s).
  - unfold _send_to, _broadcast, str_encode. rewrite Hm. munfold. cbn.
    by destruct (verbose s).
Qed.

(** X1. Neither [_send_to] nor [_broadcast] raises or changes the daemon. A
    message that UTF-8 encodes gives one [sendto] call, with its encoding,
    for the given address (the broadcast address for [_broadcast]) and the
    daemon's port, whether or not the socket takes it; a message that does
    not encode gives none. *)
Theorem send_errors_swallowed (env : Env) (message address : pystr)
    (s : Daemon) :
  let to_one := _send_to env message address s in
  let to_all := _broadcast env message s in
  (to_one.1 = (Returned tt, s) ∧ to_all.1 = (Returned tt, s))
  ∧ (copy_calls to_one.2 = [] ∧ copy_calls to_all.2 = [])
  ∧ sendto_calls to_one.2
    = match Utf8.encode message with
      | Some data => [(data, address, port s)]
      | None => []
      end
  ∧ sendto_calls to_all.2
    = match Utf8.encode message with
      | Some data => [(data, BROADCAST_ADDRESS, port s)]
      | None => []
      end.
Proof. apply send_calls. Qed.

Lemma respond_to_discovery_trace (env : Env) sender s :
  ∃ t, _send_to env (discovery_response env) sender s = (Returned tt, s, t)
       ∧ _respond_to_discovery env sender s
         = (Returned tt, s, t ++ verbose_log s (RespondedToDiscovery sender)).
Proof.
  destruct (send_calls env (discovery_response env) sender s)
    as ((Hone & _) & _).
  destruct (_send_to env (discovery_response env) sender s)
    as [[o s'] t] eqn:Hsend.
  cbn in Hone. injection Hone as -> ->.
  exists t. split; [done|].
  unfold _respond_to_discovery. cbv zeta.
  change (DEVICE_PREFIX ++ codes "Linux|" ++ _) with (discovery_response env).
  unfold mbind, M_bind, bind. rewrite Hsend. munfold. cbn.
  unfold verbose_log. destruct (verbose s); cbn; [done|].
  by rewrite app_nil_r.
Qed.

(** What [_handle_message] hands to the socket, by the message read. *)
Lemma handle_message_sendto (env : Env) now message sender s :
  sendto_calls (exec (_handle_message env now message sender) s).2
  = match decode message with
    | Some Discover =>
        match Utf8.encode (discovery_response env) with
        | Some data => [(data, sender, port s)]
        | None => []
        end
    | Some (ClipboardPayload text) =>
        if bool_decide (text = last_clipboard s) || copy_raises env text
        then []
        else [(ACK_PREFIX ++ codes "RECEIVED", sender, port s)]
    | _ => []
    end.
Proof.
  unfold exec. rewrite handle_message_run.
  destruct (decode message) as [[|platform name|text|status|]|].
  - destruct (respond_to_discovery_trace env sender s) as (t & Hsend & ->).
    destruct (send_calls env (discovery_response env) sender s)
      as (_ & _ & Hcalls & _).
    rewrite Hsend in Hcalls. cbn [snd] in *.
    by rewrite sendto_calls_app, sendto_calls_verbose_log, app_nil_r.
  - done.
  - unfold applied. case_bool_decide; [done|]. cbn.
    destruct (copy_raises env text); cbn; [apply sendto_calls_verbose_log|].
    rewrite sendto_calls_app. cbn. rewrite app_nil_r.
    by destruct (sendto_raises env _ sender); [rewrite sendto_calls_verbose_log|].
  - apply sendto_calls_verbose_log.
  - rewrite handle_heartbeat_run.
    by destruct (discovered_devices s !! sender).
  - unfold dropped_log. destruct (startswith _ _); [|done].
    destruct (payload_text _); [apply sendto_calls_verbose_log|done].
Qed.

(** ** What a frame can do *)

(** The daemon after a frame, by the message read. *)
Lemma handle_message_state (env : Env) now message sender s :
  (exec (_handle_message env now message sender) s).1
  = match decode message with
    | Some (DeviceAnnounce platform name) =>
        with_devices
          (<[sender := mkDevice sender platform name now]>
             (discovered_devices s)) s
    | Some (ClipboardPayload text) => with_clipboard text s
    | Some Heartbeat =>
        match discovered_devices s !! sender with
        | Some device =>
            with_devices
              (<[sender := touched now device]> (discovered_devices s)) s
        | None => s
        end
    | _ => s
    end.
Proof.
  unfold exec. rewrite handle_message_run.
  destruct (decode message) as [[|platform name|text|status|]|]; try done.
  - by destruct (respond_to_discovery_trace env sender s) as (t & _ & ->).
  - unfold applied. case_bool_decide as Heq; [|done].
    subst text. by destruct s.
  - rewrite handle_heartbeat_run.
    by destruct (discovered_devices s !! sender).
Qed.

Lemma handle_message_copy (env : Env) now message sender s :
  copy_calls (exec (_handle_message env now message sender) s).2
  = match decode message with
    | Some (ClipboardPayload text) =>
        if bool_decide (text = last_clipboard s) then [] else [text]
    | _ => []
    end.
Proof.
  unfold exec. rewrite handle_message_run.
  destruct (decode message) as [[|platform name|text|status|]|].
  - destruct (respond_to_discovery_trace env sender s) as (t & Hsend & ->).
    destruct (send_calls env (discovery_response env) sender s)
      as (_ & (Hcopy & _) & _).
    rewrite Hsend in Hcopy. cbn [snd] in *.
    by rewrite copy_calls_app, Hcopy, copy_calls_verbose_log.
  - done.
  - unfold applied. case_bool_decide; [done|]. cbn. f_equal.
    destruct (copy_raises env text); [apply copy_calls_verbose_log|].
    cbn. rewrite copy_calls_app. cbn. rewrite app_nil_r.
    by destruct (sendto_raises env _ sender); [rewrite copy_calls_verbose_log|].
  - apply copy_calls_verbose_log.
  - rewrite handle_heartbeat_run.
    by destruct (discovered_devices s !! sender).
  - unfold dropped_log. destruct (startswith _ _); [|done].
    destruct (payload_text _); [apply copy_calls_verbose_log|done].
Qed.

(** X2. A frame touches no peer but its sender, and only an announce puts
    its sender in the table: a heartbeat, a clipboard frame, an
    acknowledgment or a discovery request from an unknown address leaves the
    address unknown. *)
Theorem frame_touches_sender_only (env : Env) (now : datetime) (message sender : pystr)
    (s : Daemon) :
  let table' :=
    discovered_devices (exec (_handle_message env now message sender) s).1 in
  (∀ addr, addr ≠ sender → table' !! addr = discovered_devices s !! addr)
  ∧ (discovered_devices s !! sender = None →
     table' !! sender
     = match decode message with
       | Some (DeviceAnnounce platform name) =>
           Some (mkDevice sender platform name now)
       | _ => None
       end).
Proof.
  cbv zeta. rewrite handle_message_state. split.
  - intros addr Hne.
    destruct (decode message) as [[|platform name|text|status|]|]; try done.
    + cbn. by rewrite lookup_insert_ne.
    + destruct (discovered_devices s !! sender); [|done].
      cbn. by rewrite lookup_insert_ne.
  - intros Hnone.
    destruct (decode message) as [[|platform name|text|status|]|]; try done.
    + cbn. by rewrite lookup_insert_eq.
    + by rewrite Hnone.
Qed.

Lemma frame_touches_sender_only_witness :
  let s := with_devices {[ peerA := mkDevice peerA (codes "Android")
                                      (codes "Pixel") 0 ]} started in
  let other := codes "192.168.1.77" in
  let table' :=
    discovered_devices
      (exec (_handle_message hostB 5 HEARTBEAT_MESSAGE other) s).1 in
  table' !! peerA = Some (mkDevice peerA (codes "Android") (codes "Pixel") 0)
  ∧ table' !! other = None.
Proof.
  cbv zeta.
  destruct (frame_touches_sender_only hostB 5 HEARTBEAT_MESSAGE (codes "192.168.1.77")
              (with_devices {[ peerA := mkDevice peerA (codes "Android")
                                          (codes "Pixel") 0 ]} started))
    as [Hother Hsender].
  split.
  - rewrite Hother; [by vm_compute|]. by vm_compute.
  - by rewrite Hsender; vm_compute.
Defined.

(** X3. The snapshot after a frame is the text of the frame when the frame
    reads as a clipboard message, also when the write to the clipboard
    raises, and the snapshot before in every other case. *)
Theorem snapshot_after_frame (env : Env) (now : datetime) (message sender : pystr)
    (s : Daemon) :
  last_clipboard (exec (_handle_message env now message sender) s).1
  = match decode message with
    | Some (ClipboardPayload text) => text
    | _ => last_clipboard s
    end.
Proof.
  rewrite handle_message_state.
  destruct (decode message) as [[|platform name|text|status|]|]; try done.
  by destruct (discovered_devices s !! sender).
Qed.

(** X4. The listening side never broadcasts: handling a frame makes at most
    one [sendto] call, addressed to the sender of the frame on the daemon's
    port; and it writes to the clipboard only for a clipboard frame whose
    text differs from the snapshot, once, that text. *)
Theorem inbound_answers_sender_only (env : Env) (now : datetime) (message sender : pystr)
    (s : Daemon) :
  let t := (exec (_handle_message env now message sender) s).2 in
  (length (sendto_calls t) ≤ 1)%nat
  ∧ Forall (λ call, call.1.2 = sender ∧ call.2 = port s) (sendto_calls t)
  ∧ copy_calls t
    = match decode message with
      | Some (ClipboardPayload text) =>
          if bool_decide (text = last_clipboard s) then [] else [text]
      | _ => []
      end.
Proof.
  cbv zeta. rewrite handle_message_sendto, handle_message_copy.
  split; [|split; [|done]].
  - destruct (decode message) as [[|platform name|text|status|]|]; cbn; try lia.
    + destruct (Utf8.encode _); cbn; lia.
    + destruct (_ || _); cbn; lia.
  - destruct (decode message) as [[|platform name|text|status|]|];
      try by constructor.
    + destruct (Utf8.encode _); by repeat constructor.
    + destruct (_ || _); by repeat constructor.
Qed.

(** X5. An announce inserts or overwrites. After a frame that reads as an
    announce, the sender's entry is the announced device, seen now; the
    table has one peer more when the sender was unknown and as many as
    before when it was known: an address is never recorded twice. *)
Theorem announce_upserts (env : Env) (now : datetime)
    (message sender platform name : pystr) (s : Daemon) :
  decode message = Some (DeviceAnnounce platform name) →
  let table' :=
    discovered_devices (exec (_handle_message env now message sender) s).1 in
  table' !! sender = Some (mkDevice sender platform name now)
  ∧ size table'
    = match discovered_devices s !! sender with
      | Some _ => size (discovered_devices s)
      | None => S (size (discovered_devices s))
      end.
Proof.
  intros Hdec. cbv zeta. rewrite handle_message_state, Hdec. cbn.
  split; [apply lookup_insert_eq|].
  rewrite map_size_insert. by destruct (discovered_devices s !! sender).
Qed.

Lemma announce_upserts_witness :
  let s := with_devices {[ peerA := mkDevice peerA (codes "Android")
                                      (codes "Pixel") 0 ]} started in
  let table' :=
    discovered_devices
      (exec (_handle_message hostB 9 (codes "NEXUSCLIP_DEVICE:Android|Pixel 8")
               peerA) s).1 in
  table' !! peerA = Some (mkDevice peerA (codes "Android") (codes "Pixel 8") 9)
  ∧ size table' = 1%nat.
Proof.
  exact (announce_upserts hostB 9 (codes "NEXUSCLIP_DEVICE:Android|Pixel 8")
           peerA (codes "Android") (codes "Pixel 8")
           (with_devices {[ peerA := mkDevice peerA (codes "Android")
                                       (codes "Pixel") 0 ]} started)
           eq_refl).
Defined.

Lemma decode_device_prefix (payload : pystr) :
  decode (DEVICE_PREFIX ++ payload)
  = match split PIPE payload with
    | platform :: name :: _ => Some (DeviceAnnounce platform name)
    | _ => None
    end.
Proof.
  unfold decode.
  rewrite bool_decide_eq_false_2 by (vm_compute; discriminate).
  rewrite startswith_app, drop_prefix.
  by destruct (split PIPE payload) as [|platform [|name parts]].
Qed.

(** X6. An answer is never answered. Whatever [_handle_message] sends (the
    announce that answers a discovery request, the acknowledgment of a
    clipboard frame), a daemon that receives it sends nothing and writes
    nothing to its clipboard: an exchange ends after one answer. *)
Theorem answers_are_final (env : Env) (now : datetime)
    (message sender : pystr) (s : Daemon) (data host : pystr) (p : Z) :
  (data, host, p)
    ∈ sendto_calls (exec (_handle_message env now message sender) s).2 →
  ∀ env' now' sender' s' frame,
    Utf8.decode data = Some frame →
    let t' := (exec (_handle_message env' now' frame sender') s').2 in
    sendto_calls t' = [] ∧ copy_calls t' = [].
Proof.
  rewrite handle_message_sendto. intros Hin env' now' sender' s' frame Hdec.
  cbv zeta. rewrite handle_message_sendto, handle_message_copy.
  assert (∃ payload, frame = DEVICE_PREFIX ++ payload
                     ∨ frame = ACK_PREFIX ++ payload) as [payload Hframe].
  { destruct (decode message) as [[|platform name|text|status|]|];
      try by apply elem_of_nil in Hin.
    - destruct (Utf8.encode (discovery_response env)) as [data'|] eqn:Henc;
        [|by apply elem_of_nil in Hin].
      apply list_elem_of_singleton in Hin.
      assert (data = data') as -> by congruence.
      rewrite (Utf8Facts.decode_encode _ _ Henc) in Hdec.
      injection Hdec as <-. eexists. by left.
    - destruct (_ || _); [by apply elem_of_nil in Hin|].
      apply list_elem_of_singleton in Hin.
      assert (data = ACK_PREFIX ++ codes "RECEIVED") as -> by congruence.
      assert (Utf8.decode (ACK_PREFIX ++ codes "RECEIVED")
              = Some (ACK_PREFIX ++ codes "RECEIVED")) as Hack
          by (by vm_compute).
      rewrite Hack in Hdec. injection Hdec as <-. eexists. by right. }
  destruct Hframe as [-> | ->].
  - rewrite decode_device_prefix.
    by destruct (split PIPE payload) as [|platform [|name parts]].
  - by rewrite decode_encode_ack.
Qed.

Lemma answers_are_final_witness :
  let answer := codes "NEXUSCLIP_DEVICE:Linux|hostB" in
  let t' := (exec (_handle_message hostB 2 answer (codes "192.168.1.11"))
               started).2 in
  sendto_calls t' = [] ∧ copy_calls t' = [].
Proof.
  assert ((codes "NEXUSCLIP_DEVICE:Linux|hostB", peerA, SYNC_PORT)
            ∈ sendto_calls
                (exec (_handle_message hostB 1 DISCOVERY_MESSAGE peerA)
                   started).2) as Hin
      by (vm_compute; apply list_elem_of_here).
  exact (answers_are_final hostB 1 DISCOVERY_MESSAGE peerA started _ _ _ Hin
           hostB 2 (codes "192.168.1.11") started
           (codes "NEXUSCLIP_DEVICE:Linux|hostB") eq_refl).
Defined.

(** X7. The two literal frames are recognised only when they are the whole
    frame: with anything appended (a newline, a field), a discovery request
    or a heartbeat is ignored, the daemon is as before and nothing is
    called. *)
Theorem literal_frames_are_exact (env : Env) (now : datetime)
    (suffix sender : pystr) (s : Daemon) :
  suffix ≠ [] →
  exec (_handle_message env now (DISCOVERY_MESSAGE ++ suffix) sender) s = (s, [])
  ∧ exec (_handle_message env now (HEARTBEAT_MESSAGE ++ suffix) sender) s
    = (s, []).
Proof.
  intros Hsuffix.
  assert (∀ literal : pystr, literal ++ suffix ≠ literal) as Hne.
  { intros literal Heq. apply Hsuffix.
    apply (app_inv_head literal). by rewrite app_nil_r. }
  unfold exec. rewrite !handle_message_run. unfold decode, dropped_log.
  rewrite (bool_decide_eq_false_2 _ (Hne DISCOVERY_MESSAGE)).
  rewrite (bool_decide_eq_false_2 (HEARTBEAT_MESSAGE ++ suffix = DISCOVERY_MESSAGE))
    by (vm_compute; discriminate).
  assert (startswith (DISCOVERY_MESSAGE ++ suffix) DEVICE_PREFIX = false) as ->
      by reflexivity.
  assert (startswith (DISCOVERY_MESSAGE ++ suffix) CLIPBOARD_PREFIX = false)
    as -> by reflexivity.
  assert (startswith (DISCOVERY_MESSAGE ++ suffix) ACK_PREFIX = false) as ->
      by reflexivity.
  assert (startswith (HEARTBEAT_MESSAGE ++ suffix) DEVICE_PREFIX = false) as ->
      by reflexivity.
  assert (startswith (HEARTBEAT_MESSAGE ++ suffix) CLIPBOARD_PREFIX = false)
    as -> by reflexivity.
  assert (startswith (HEARTBEAT_MESSAGE ++ suffix) ACK_PREFIX = false) as ->
      by reflexivity.
  rewrite (bool_decide_eq_false_2 (DISCOVERY_MESSAGE ++ suffix = HEARTBEAT_MESSAGE))
    by (vm_compute; discriminate).
  by rewrite (bool_decide_eq_false_2 _ (Hne HEARTBEAT_MESSAGE)).
Qed.

Lemma literal_frames_are_exact_witness :
  let s := with_devices {[ peerA := mkDevice peerA (codes "Android")
                                      (codes "Pixel") 0 ]} started in
  exec (_handle_message hostB 9 (codes "NEXUSCLIP_HEARTBEAT ") peerA) s
  = (s, []).
Proof.
  refine (proj2 (literal_frames_are_exact hostB 9 (codes " ") peerA _ _)).
  by vm_compute.
Defined.

(** X8. An announce needs its separator: a frame with the device prefix and
    no '|' after it (no name, or nothing at all) records nothing, prints
    nothing and leaves the daemon as before. *)
Theorem announce_without_separator_ignored (env : Env) (now : datetime)
    (payload sender : pystr) (s : Daemon) :
  (PIPE ∉ payload) →
  exec (_handle_message env now (DEVICE_PREFIX ++ payload) sender) s = (s, []).
Proof.
  intros Hpipe. unfold exec.
  rewrite handle_message_device, handle_device_response_run.
  by rewrite (split_no_sep _ _ Hpipe).
Qed.

Lemma announce_without_separator_ignored_witness :
  (PIPE ∉ codes "Pixel")
  ∧ exec (_handle_message hostB 1 (codes "NEXUSCLIP_DEVICE:Pixel") peerA) started
    = (started, []).
Proof.
  assert (PIPE ∉ codes "Pixel") as Hpipe
      by (apply (bool_decide_unpack _); by vm_compute).
  split; [exact Hpipe|].
  exact (announce_without_separator_ignored hostB 1 (codes "Pixel") peerA
           started Hpipe).
Defined.

(** The fields an announce is read with never hold a '|'. *)
Lemma decode_announce_pipe_free (message platform name : pystr) :
  decode message = Some (DeviceAnnounce platform name) →
  (PIPE ∉ platform) ∧ (PIPE ∉ name).
Proof.
  unfold decode.
  case_bool_decide; [done|].
  destruct (startswith message DEVICE_PREFIX).
  - pose proof (split_parts_no_sep PIPE (drop (length DEVICE_PREFIX) message))
      as Hparts.
    destruct (split PIPE _) as [|p0 [|p1 parts]]; try done.
    cbn. intros [= <- <-].
    apply Forall_cons in Hparts as [H0 Hparts].
    by apply Forall_cons in Hparts as [H1 _].
  - destruct (startswith message CLIPBOARD_PREFIX);
      [by destruct (payload_text _)|].
    destruct (startswith message ACK_PREFIX); [done|].
    by case_bool_decide.
Qed.

(** ** An invariant of the peer table *)

(** Every entry is filed under its own address, and its platform and name
    hold no '|'. *)
Definition table_ok (s : Daemon) : Prop :=
  ∀ addr device,
    discovered_devices s !! addr = Some device →
    address device = addr
    ∧ (PIPE ∉ platform device) ∧ (PIPE ∉ name device).

Lemma table_ok_init (port : Z) (verbose : bool) : table_ok (init port verbose).
Proof. intros addr device. unfold init. cbn. by rewrite lookup_empty. Qed.

Lemma handle_message_table_ok (env : Env) (now : datetime)
    (message sender : pystr) (s : Daemon) :
  table_ok s → table_ok (exec (_handle_message env now message sender) s).1.
Proof.
  intros Hok. rewrite handle_message_state.
  destruct (decode message) as [[|platform name|text|status|]|] eqn:Hdec;
    try done.
  - apply decode_announce_pipe_free in Hdec as [Hp Hn].
    intros addr device. cbn.
    destruct (decide (addr = sender)) as [->|Hne].
    + rewrite lookup_insert_eq. by intros [= <-].
    + rewrite lookup_insert_ne by done. apply Hok.
  - destruct (discovered_devices s !! sender) as [d|] eqn:Hd; [|done].
    intros addr device. cbn.
    destruct (decide (addr = sender)) as [->|Hne].
    + rewrite lookup_insert_eq. intros [= <-]. apply (Hok _ _ Hd).
    + rewrite lookup_insert_ne by done. apply Hok.
Qed.

(** X9. Whatever frame is handled, from whatever address, the peer table stays
    well-formed: every peer is filed under its own address, and no recorded
    platform or name holds a '|'. *)
Theorem handle_message_keeps_table_ok (env : Env) (now : datetime)
    (message sender : pystr) (s : Daemon) :
  table_ok s → table_ok (exec (_handle_message env now message sender) s).1.
Proof. apply handle_message_table_ok. Qed.

Lemma handle_message_keeps_table_ok_witness :
  table_ok (exec (_handle_message hostB 3
                    (codes "NEXUSCLIP_DEVICE:Android|Pixel|7") peerA) started).1.
Proof.
  exact (handle_message_keeps_table_ok hostB 3
           (codes "NEXUSCLIP_DEVICE:Android|Pixel|7") peerA started
           (table_ok_init SYNC_PORT true)).
Defined.

(** ** Clipboard frames *)

(** Characters outside the alphabet, pads among them, are passed over as
    long as no quad has two characters. *)
Lemma a2b_loop_skips (quad_pos : nat) (leftchar pads : Z) (junk rest : pystr) :
  (quad_pos < 2)%nat →
  Forall (λ ch, Base64.a2b ch = None) junk →
  Base64.a2b_loop quad_pos leftchar pads (junk ++ rest)
  = Base64.a2b_loop quad_pos leftchar pads rest.
Proof.
  intros Hq. induction 1 as [|ch junk Hch _ IH]; [done|].
  cbn [app Base64.a2b_loop]. rewrite Hch, IH.
  destruct (ch =? Base64.BASE64_PAD); [|done].
  by rewrite (proj2 (Nat.leb_gt 2 quad_pos) Hq).
Qed.

Lemma payload_text_junk (payload : pystr) :
  Forall (λ ch, 0 ≤ ch < 128 ∧ Base64.a2b ch = None) payload →
  payload_text payload = inr [].
Proof.
  intros Hjunk. unfold payload_text, Base64.b64decode, Base64.a2b_base64.
  assert (forallb (λ c, c <? 128) payload = true) as ->.
  { apply forallb_forall. intros c Hc%list_elem_of_In.
    rewrite Forall_forall in Hjunk. apply Z.ltb_lt. by apply Hjunk. }
  rewrite <- (app_nil_r payload), a2b_loop_skips; [done|lia|].
  eapply Forall_impl; [exact Hjunk|]. by intros ch [_ ?].
Qed.

(** X10. A clipboard frame whose payload holds no character of the Base64
    alphabet (an empty payload; blanks, pads, punctuation) is not refused: it
    reads as the empty text. The snapshot becomes empty, and when it was not
    empty before, the empty text is written to the clipboard. *)
Theorem junk_payload_is_empty_text (env : Env) (now : datetime)
    (payload sender : pystr) (s : Daemon) :
  Forall (λ ch, 0 ≤ ch < 128 ∧ Base64.a2b ch = None) payload →
  let after := exec (_handle_message env now (CLIPBOARD_PREFIX ++ payload) sender) s in
  last_clipboard after.1 = []
  ∧ copy_calls after.2 = if bool_decide (last_clipboard s = []) then [] else [[]].
Proof.
  intros Hjunk. cbv zeta.
  assert (decode (CLIPBOARD_PREFIX ++ payload) = Some (ClipboardPayload []))
    as Hdec.
  { unfold decode.
    rewrite bool_decide_eq_false_2 by (vm_compute; discriminate).
    assert (startswith (CLIPBOARD_PREFIX ++ payload) DEVICE_PREFIX = false)
      as -> by reflexivity.
    by rewrite startswith_app, drop_prefix, (payload_text_junk _ Hjunk). }
  rewrite handle_message_state, handle_message_copy, Hdec.
  split; [done|]. by repeat case_bool_decide.
Qed.

Lemma junk_payload_is_empty_text_witness :
  let s := with_clipboard (codes "secret") started in
  let after := exec (_handle_message hostB 1 (codes "NEXUSCLIP_CLIP: == ") peerA) s in
  last_clipboard after.1 = [] ∧ copy_calls after.2 = [[]].
Proof.
  refine (junk_payload_is_empty_text hostB 1 (codes " == ") peerA
            (with_clipboard (codes "secret") started) _).
  repeat constructor; by vm_compute.
Defined.

(** X11. No echo. After a clipboard frame has been handled, whether its text
    was new or not and whether the write to the clipboard succeeded or not,
    a poll that reads the text of the frame sends nothing and changes
    nothing: a text received is never broadcast back. *)
Theorem received_text_is_not_echoed (env : Env) (now : datetime)
    (message sender text : pystr) (s : Daemon) :
  decode message = Some (ClipboardPayload text) →
  let s' := (exec (_handle_message env now message sender) s).1 in
  exec (_clipboard_monitor_loop_body env (Pasted text)) s' = (s', []).
Proof.
  intros Hdec. cbv zeta.
  assert (last_clipboard (exec (_handle_message env now message sender) s).1
          = text) as Hsnap by (by rewrite handle_message_state, Hdec).
  set (s' := (exec (_handle_message env now message sender) s).1) in *.
  unfold exec. rewrite clipboard_monitor_loop_body_run.
  rewrite (bool_decide_eq_true_2 (text = last_clipboard s'))
    by (symmetry; exact Hsnap).
  by rewrite orb_true_r.
Qed.

Lemma received_text_is_not_echoed_witness :
  let s' := (exec (_handle_message hostB 1 (codes "NEXUSCLIP_CLIP:aGVsbG8=")
                     peerA) started).1 in
  exec (_clipboard_monitor_loop_body hostB (Pasted (codes "hello"))) s' = (s', []).
Proof.
  exact (received_text_is_not_echoed hostB 1 (codes "NEXUSCLIP_CLIP:aGVsbG8=")
           peerA (codes "hello") started eq_refl).
Defined.

(** ** From one daemon to another *)

(** A datagram that fits the buffer is handled as the frame it encodes. *)
Lemma listen_loop_body_frame (env : Env) now frame data sender s :
  Utf8.encode frame = Some data →
  Z.of_nat (length data) ≤ BUFFER_SIZE →
  _listen_loop_body env now (RecvFrom data sender) s
  = _handle_message env now frame sender s.
Proof.
  intros Henc Hlen. apply listen_loop_body_datagram.
  rewrite take_ge by lia. by apply Utf8Facts.decode_encode.
Qed.

Lemma broadcast_clipboard_sendto (env : Env) (text : pystr) (s : Daemon) :
  sendto_calls (exec (_broadcast_clipboard env text) s).2
  = match Utf8.encode text with
    | Some raw =>
        [(CLIPBOARD_PREFIX ++ Base64.b64encode raw, BROADCAST_ADDRESS, port s)]
    | None => []
    end.
Proof.
  unfold exec. destruct (Utf8.encode text) as [raw|] eqn:Henc.
  - rewrite (broadcast_clipboard_run _ _ _ _ Henc). cbn [snd].
    change (Sendto ?d ?h ?p :: ?t) with ([Sendto d h p] ++ t).
    rewrite !sendto_calls_app. cbn.
    by destruct (sendto_raises env _ _); [rewrite sendto_calls_verbose_log|].
  - unfold _broadcast_clipboard, str_encode. rewrite Henc. munfold. by cbn.
Qed.

(** X12. From clipboard to clipboard. The datagram that one daemon broadcasts
    for a text, when it fits the receive buffer and arrives at a daemon
    whose snapshot differs from the text, makes that daemon set its snapshot
    to the text and call [pyperclip.copy] with the text, exactly; and when
    that call returns, acknowledge to the address the datagram came from. *)
Theorem clipboard_end_to_end (envA envB : Env) (sA sB : Daemon)
    (text data addrA : pystr) (now : datetime) :
  sendto_calls (exec (_broadcast_clipboard envA text) sA).2
  = [(data, BROADCAST_ADDRESS, port sA)] →
  Z.of_nat (length data) ≤ BUFFER_SIZE →
  text ≠ last_clipboard sB →
  let arrival := exec (_listen_loop_body envB now (RecvFrom data addrA)) sB in
  arrival.1 = with_clipboard text sB
  ∧ copy_calls arrival.2 = [text]
  ∧ sendto_calls arrival.2
    = if copy_raises envB text then []
      else [(ACK_PREFIX ++ codes "RECEIVED", addrA, port sB)].
Proof.
  intros Hsent Hlen Hne. cbv zeta.
  rewrite broadcast_clipboard_sendto in Hsent.
  destruct (Utf8.encode text) as [raw|] eqn:Henc; [|done].
  assert (data = CLIPBOARD_PREFIX ++ Base64.b64encode raw) as -> by congruence.
  pose proof (handle_message_state envB now
                (CLIPBOARD_PREFIX ++ Base64.b64encode raw) addrA sB) as Hstate.
  pose proof (handle_message_copy envB now
                (CLIPBOARD_PREFIX ++ Base64.b64encode raw) addrA sB) as Hcopy.
  pose proof (handle_message_sendto envB now
                (CLIPBOARD_PREFIX ++ Base64.b64encode raw) addrA sB) as Hsend.
  rewrite (decode_encode_clipboard _ _ Henc) in Hstate, Hcopy, Hsend.
  rewrite (bool_decide_eq_false_2 _ Hne) in Hcopy, Hsend.
  assert (∀ A (m m' : M A) s, m s = m' s → exec m s = exec m' s) as Hexec
      by (intros A m m' s0 Heq; unfold exec; by rewrite Heq).
  rewrite (Hexec _ _ (_handle_message envB now
                        (CLIPBOARD_PREFIX ++ Base64.b64encode raw) addrA) sB)
    by apply (listen_loop_body_frame envB now _ _ addrA sB
                (clipboard_frame_ascii raw) Hlen).
  by rewrite Hstate, Hcopy, Hsend.
Qed.

Lemma clipboard_end_to_end_witness :
  let data := codes "NEXUSCLIP_CLIP:aGVsbG8=" in
  let arrival := exec (_listen_loop_body hostB 4 (RecvFrom data peerA)) started in
  sendto_calls (exec (_broadcast_clipboard hostB (codes "hello")) started).2
  = [(data, BROADCAST_ADDRESS, SYNC_PORT)]
  ∧ copy_calls arrival.2 = [codes "hello"]
  ∧ sendto_calls arrival.2 = [(codes "NEXUSCLIP_ACK:RECEIVED", peerA, SYNC_PORT)].
Proof.
  assert (sendto_calls
            (exec (_broadcast_clipboard hostB (codes "hello")) started).2
          = [(codes "NEXUSCLIP_CLIP:aGVsbG8=", BROADCAST_ADDRESS, port started)])
    as Hsent by (by vm_compute).
  assert (Z.of_nat (length (codes "NEXUSCLIP_CLIP:aGVsbG8=")) ≤ BUFFER_SIZE)
    as Hlen by (by vm_compute).
  assert (codes "hello" ≠ last_clipboard started) as Hne by (by vm_compute).
  split; [exact Hsent|].
  exact (proj2 (clipboard_end_to_end hostB hostB started started (codes "hello")
                  (codes "NEXUSCLIP_CLIP:aGVsbG8=") peerA 4 Hsent Hlen Hne)).
Defined.

(** X13. Discovery, from request to table. The answer a daemon gives to a
    discovery request, when its host name holds no '|', encodes in UTF-8 and
    fits the buffer, makes the asking daemon, which receives it from the
    answering daemon's address, record that address with the platform
    "Linux" and the host's name ("Linux" for a host without a name), last
    seen at the time of the arrival. *)
Theorem discovery_end_to_end (envB envA : Env) (sB sA : Daemon)
    (data addrA addrB : pystr) (now now' : datetime) :
  (PIPE ∉ device_name envB) →
  sendto_calls (exec (_handle_message envB now DISCOVERY_MESSAGE addrA) sB).2
  = [(data, addrA, port sB)] →
  Z.of_nat (length data) ≤ BUFFER_SIZE →
  (exec (_listen_loop_body envA now' (RecvFrom data addrB)) sA).1
  = with_devices
      (<[addrB := mkDevice addrB (codes "Linux") (device_name envB) now']>
         (discovered_devices sA)) sA.
Proof.
  intros Hpipe Hsent Hlen.
  rewrite handle_message_sendto in Hsent.
  change (decode DISCOVERY_MESSAGE) with (Some Discover) in Hsent.
  destruct (Utf8.encode (discovery_response envB)) as [data'|] eqn:Henc;
    [|done].
  assert (data' = data) as -> by congruence.
  assert (∀ A (m m' : M A) s, m s = m' s → exec m s = exec m' s) as Hexec
      by (intros A m m' s0 Heq; unfold exec; by rewrite Heq).
  rewrite (Hexec _ _ (_handle_message envA now' (discovery_response envB) addrB) sA)
    by apply (listen_loop_body_frame envA now' _ _ addrB sA Henc Hlen).
  rewrite handle_message_state.
  unfold discovery_response.
  change (DEVICE_PREFIX ++ codes "Linux|" ++ device_name envB)
    with (DEVICE_PREFIX ++ codes "Linux" ++ [PIPE] ++ device_name envB).
  rewrite decode_encode_announce by (apply (bool_decide_unpack _); by vm_compute).
  by rewrite (split_no_sep _ _ Hpipe).
Qed.

Lemma discovery_end_to_end_witness :
  let data := codes "NEXUSCLIP_DEVICE:Linux|hostB" in
  let addrB := codes "192.168.1.11" in
  discovered_devices
    (exec (_listen_loop_body hostB 8 (RecvFrom data addrB)) started).1 !! addrB
  = Some (mkDevice addrB (codes "Linux") (codes "hostB") 8).
Proof.
  assert (PIPE ∉ device_name hostB) as Hpipe
      by (apply (bool_decide_unpack _); by vm_compute).
  assert (sendto_calls
            (exec (_handle_message hostB 7 DISCOVERY_MESSAGE peerA) started).2
          = [(codes "NEXUSCLIP_DEVICE:Linux|hostB", peerA, port started)])
    as Hsent by (by vm_compute).
  assert (Z.of_nat (length (codes "NEXUSCLIP_DEVICE:Linux|hostB")) ≤ BUFFER_SIZE)
    as Hlen by (by vm_compute).
  cbv zeta.
  rewrite (discovery_end_to_end hostB hostB started started
             (codes "NEXUSCLIP_DEVICE:Linux|hostB") peerA (codes "192.168.1.11")
             7 8 Hpipe Hsent Hlen).
  apply lookup_insert_eq.
Defined.

(** The [sendto] call that broadcasts a text, none for a text that UTF-8
    cannot encode. *)
Definition broadcast_call (port : Z) (text : pystr)
  : list (bytes * pystr * Z) :=
  match Utf8.encode text with
  | Some raw =>
      [(CLIPBOARD_PREFIX ++ Base64.b64encode raw, BROADCAST_ADDRESS, port)]
  | None => []
  end.

Lemma clipboard_monitor_loop_body_poll (env : Env) text s :
  ∃ t, _clipboard_monitor_loop_body env (Pasted text) s
       = (Returned tt,
          (if bool_decide (text = []) || bool_decide (text = last_clipboard s)
           then s else with_clipboard text s), t)
       ∧ copy_calls t = []
       ∧ sendto_calls t
         = if bool_decide (text = []) || bool_decide (text = last_clipboard s)
           then [] else broadcast_call (port s) text.
Proof.
  rewrite clipboard_monitor_loop_body_run. unfold broadcast_call.
  destruct (_ || _); [by eexists|].
  destruct (Utf8.encode text) as [raw|] eqn:Henc.
  - rewrite (broadcast_clipboard_run _ _ _ _ Henc). eexists.
    split; [done|]. cbn [port with_clipboard].
    change (Sendto ?d ?h ?p :: ?t) with ([Sendto d h p] ++ t).
    rewrite !sendto_calls_app, !copy_calls_app. cbn.
    by destruct (sendto_raises env _ _);
      [rewrite sendto_calls_verbose_log, copy_calls_verbose_log|].
  - eexists. split; [done|].
    by rewrite sendto_calls_verbose_log, copy_calls_verbose_log.
Qed.

(** X14. A daemon ignores its own broadcast. The datagram a poll has just
    broadcast, when it comes back to the daemon that sent it (a broadcast
    reaches its sender too), changes nothing and calls nothing: the snapshot
    was set before the sending, so the text is not applied and not
    acknowledged. *)
Theorem own_broadcast_is_ignored (env : Env) (p : Paste) (s : Daemon)
    (data from : pystr) (now : datetime) :
  sendto_calls (exec (_clipboard_monitor_loop_body env p) s).2
  = [(data, BROADCAST_ADDRESS, port s)] →
  Z.of_nat (length data) ≤ BUFFER_SIZE →
  let s' := (exec (_clipboard_monitor_loop_body env p) s).1 in
  exec (_listen_loop_body env now (RecvFrom data from)) s' = (s', []).
Proof.
  intros Hsent Hlen. cbv zeta. revert Hsent.
  destruct p as [text|].
  2:{ unfold exec, _clipboard_monitor_loop_body. munfold. cbn.
      by destruct (verbose s). }
  destruct (clipboard_monitor_loop_body_poll env text s)
    as (t & Hbody & _ & Hsend).
  unfold exec. rewrite Hbody. cbn [fst snd]. rewrite Hsend.
  destruct (_ || _); [done|].
  unfold broadcast_call.
  destruct (Utf8.encode text) as [raw|] eqn:Henc; [|done].
  intros Hdata.
  assert (data = CLIPBOARD_PREFIX ++ Base64.b64encode raw) as -> by congruence.
  rewrite (listen_loop_body_frame env now _ _ from _
             (clipboard_frame_ascii raw) Hlen).
  rewrite handle_message_run, (decode_encode_clipboard _ _ Henc).
  unfold applied. cbn [last_clipboard with_clipboard].
  by rewrite bool_decide_eq_true_2.
Qed.

Lemma own_broadcast_is_ignored_witness :
  let poll := _clipboard_monitor_loop_body hostB (Pasted (codes "hello")) in
  let s' := (exec poll started).1 in
  exec (_listen_loop_body hostB 3
          (RecvFrom (codes "NEXUSCLIP_CLIP:aGVsbG8=") (codes "192.168.1.11"))) s'
  = (s', []).
Proof.
  assert (sendto_calls
            (exec (_clipboard_monitor_loop_body hostB (Pasted (codes "hello")))
               started).2
          = [(codes "NEXUSCLIP_CLIP:aGVsbG8=", BROADCAST_ADDRESS, port started)])
    as Hsent by (by vm_compute).
  assert (Z.of_nat (length (codes "NEXUSCLIP_CLIP:aGVsbG8=")) ≤ BUFFER_SIZE)
    as Hlen by (by vm_compute).
  exact (own_broadcast_is_ignored hostB (Pasted (codes "hello")) started
           (codes "NEXUSCLIP_CLIP:aGVsbG8=") (codes "192.168.1.11") 3
           Hsent Hlen).
Defined.

(** ** The heartbeat turn and the cleanup *)

Lemma sendto_calls_prints {A} (f : A → LogLine) (l : list A) :
  sendto_calls ((λ x, Print (f x)) <$> l) = [].
Proof. by induction l. Qed.

Lemma copy_calls_prints {A} (f : A → LogLine) (l : list A) :
  copy_calls ((λ x, Print (f x)) <$> l) = [].
Proof. by induction l. Qed.

Lemma heartbeat_loop_body_run (env : Env) (now : datetime) (s : Daemon) :
  _heartbeat_loop_body env now s
  = (Returned tt,
     with_devices
       (filter (λ item, is_stale now 120 item.2 = false) (discovered_devices s)) s,
     (Sendto HEARTBEAT_MESSAGE BROADCAST_ADDRESS (port s)
      :: (if sendto_raises env HEARTBEAT_MESSAGE BROADCAST_ADDRESS
          then verbose_log s (BroadcastError OSError) else []))
     ++ ((λ item, Print (DeviceDisconnected (name item.2)))
           <$> filter (λ item, is_stale now 120 item.2 = true)
                      (map_to_list (discovered_devices s)))).
Proof.
  assert (Utf8.encode HEARTBEAT_MESSAGE = Some HEARTBEAT_MESSAGE) as Henc
      by (by vm_compute).
  unfold _heartbeat_loop_body, try_except, mbind, M_bind, bind.
  by rewrite (broadcast_run _ _ _ _ Henc), cleanup_stale_devices_run.
Qed.

(** X15. A heartbeat turn never raises, makes one [sendto] call, the heartbeat
    literal for the broadcast address on the daemon's port, and leaves the
    daemon as the cleanup alone would: a heartbeat that the socket refuses
    does not keep the stale peers from being evicted. *)
Theorem heartbeat_turn (env : Env) (now : datetime) (s : Daemon) :
  let turn := _heartbeat_loop_body env now in
  outcome turn s = Returned tt
  ∧ sendto_calls (exec turn s).2
    = [(HEARTBEAT_MESSAGE, BROADCAST_ADDRESS, port s)]
  ∧ copy_calls (exec turn s).2 = []
  ∧ (exec turn s).1 = (exec (_cleanup_stale_devices now) s).1.
Proof.
  cbv zeta. unfold outcome, exec.
  rewrite heartbeat_loop_body_run, cleanup_stale_devices_run. cbn [fst snd].
  split; [done|].
  rewrite sendto_calls_app, copy_calls_app.
  rewrite sendto_calls_prints, copy_calls_prints, !app_nil_r.
  split; [|split; [|done]].
  - cbn. by destruct (sendto_raises env _ _);
      [rewrite sendto_calls_verbose_log|].
  - cbn. by destruct (sendto_raises env _ _);
      [rewrite copy_calls_verbose_log|].
Qed.

(** X16. A second cleanup at the same time finds nothing to do: it returns
    the same daemon and prints nothing. *)
Theorem cleanup_idempotent (now : datetime) (s : Daemon) :
  let s' := (exec (_cleanup_stale_devices now) s).1 in
  exec (_cleanup_stale_devices now) s' = (s', []).
Proof.
  cbv zeta. unfold exec. rewrite !cleanup_stale_devices_run. cbn [fst].
  set (fresh := filter (λ item : pystr * Device, is_stale now 120 item.2 = false)
                  (discovered_devices s)).
  change (discovered_devices (with_devices fresh s)) with fresh.
  assert (filter (λ item : pystr * Device, is_stale now 120 item.2 = false) fresh
          = fresh) as ->.
  { apply map_filter_id.
    by intros addr device [_ Hfresh]%map_lookup_filter_Some. }
  assert (filter (λ item : pystr * Device, is_stale now 120 item.2 = true)
            (map_to_list fresh) = []) as ->; [|done].
  apply elem_of_nil_inv. intros [addr device] [Hstale Hin]%list_elem_of_filter.
  apply elem_of_map_to_list, map_lookup_filter_Some in Hin as [_ Hfresh].
  cbn in *. congruence.
Qed.

(** X17. A heartbeat keeps a peer alive: a known peer whose heartbeat is
    handled at [now1] is still in the table, with its platform and name and
    seen at [now1], after every cleanup up to 120 seconds later. *)
Theorem heartbeat_keeps_alive (env : Env) (now1 now2 : datetime)
    (sender : pystr) (device : Device) (s : Daemon) :
  discovered_devices s !! sender = Some device →
  now2 - now1 ≤ 120 * 1000000 →
  let s1 := (exec (_handle_message env now1 HEARTBEAT_MESSAGE sender) s).1 in
  let s2 := (exec (_cleanup_stale_devices now2) s1).1 in
  discovered_devices s2 !! sender = Some (touched now1 device).
Proof.
  intros Hdev Hnow. cbv zeta.
  rewrite handle_message_state.
  change (decode HEARTBEAT_MESSAGE) with (Some Heartbeat). rewrite Hdev.
  unfold exec. rewrite cleanup_stale_devices_run. cbn.
  apply map_lookup_filter_Some. split; [apply lookup_insert_eq|].
  cbn. apply not_true_iff_false. rewrite is_stale_spec. cbn. lia.
Qed.

Lemma heartbeat_keeps_alive_witness :
  let android := mkDevice peerA (codes "Android") (codes "Pixel") 0 in
  let s := with_devices {[ peerA := android ]} started in
  let s1 := (exec (_handle_message hostB 500000000 HEARTBEAT_MESSAGE peerA) s).1 in
  let s2 := (exec (_cleanup_stale_devices 620000000) s1).1 in
  discovered_devices s2 !! peerA
  = Some (mkDevice peerA (codes "Android") (codes "Pixel") 500000000).
Proof.
  refine (heartbeat_keeps_alive hostB 500000000 620000000 peerA
            (mkDevice peerA (codes "Android") (codes "Pixel") 0)
            (with_devices {[ peerA := mkDevice peerA (codes "Android")
                                        (codes "Pixel") 0 ]} started)
            (lookup_singleton_eq _ _) _).
  by vm_compute.
Defined.

(** X18. Nothing but a heartbeat or an announce keeps a peer alive: a known
    peer last seen more than 120 seconds before a cleanup is evicted by it,
    whatever clipboard frame, acknowledgment, discovery request or unknown
    frame of that peer was handled in between. *)
Theorem traffic_does_not_keep_alive (env : Env) (now1 now2 : datetime)
    (message sender : pystr) (device : Device) (s : Daemon) :
  discovered_devices s !! sender = Some device →
  refreshes_last_seen (decode message) = false →
  120 * 1000000 < now2 - last_seen device →
  let s1 := (exec (_handle_message env now1 message sender) s).1 in
  let s2 := (exec (_cleanup_stale_devices now2) s1).1 in
  discovered_devices s2 !! sender = None.
Proof.
  intros Hdev Hkind Hold. cbv zeta.
  assert (discovered_devices
            (exec (_handle_message env now1 message sender) s).1
          = discovered_devices s) as Hsame.
  { rewrite handle_message_state.
    by destruct (decode message) as [[|platform name|text|status|]|]. }
  unfold exec at 1. rewrite cleanup_stale_devices_run. cbn. rewrite Hsame.
  apply map_lookup_filter_None. right. intros d Hd. cbn.
  assert (d = device) as -> by congruence.
  apply not_false_iff_true, is_stale_spec, Hold.
Qed.

Lemma traffic_does_not_keep_alive_witness :
  let android := mkDevice peerA (codes "Android") (codes "Pixel") 0 in
  let s := with_devices {[ peerA := android ]} started in
  let s1 := (exec (_handle_message hostB 120000000
                     (codes "NEXUSCLIP_CLIP:aGVsbG8=") peerA) s).1 in
  let s2 := (exec (_cleanup_stale_devices 120000001) s1).1 in
  discovered_devices s2 !! peerA = None.
Proof.
  refine (traffic_does_not_keep_alive hostB 120000000 120000001
            (codes "NEXUSCLIP_CLIP:aGVsbG8=") peerA
            (mkDevice peerA (codes "Android") (codes "Pixel") 0)
            (with_devices {[ peerA := mkDevice peerA (codes "Android")
                                        (codes "Pixel") 0 ]} started)
            (lookup_singleton_eq _ _) eq_refl _).
  by vm_compute.
Defined.

(** ** The three loops *)

(** What no loop writes: the flags and the port. *)
Definition same_flags (s s' : Daemon) : Prop :=
  running s' = running s ∧ verbose s' = verbose s ∧ port s' = port s.

Lemma same_flags_refl (s : Daemon) : same_flags s s.
Proof. done. Qed.

Lemma same_flags_trans (s1 s2 s3 : Daemon) :
  same_flags s1 s2 → same_flags s2 s3 → same_flags s1 s3.
Proof. unfold same_flags. intros (-> & -> & ->) (-> & -> & ->). done. Qed.

(** What a turn of the listening loop prints for an exception. *)
Definition listen_log (s : Daemon) (e : Exn) : list Event :=
  if running s && verbose s then [Print (ListenError e)] else [].

Lemma listen_loop_body_turn (env : Env) now r s :
  ∃ s' t, _listen_loop_body env now r s = (Returned tt, s', t)
          ∧ same_flags s s' ∧ (table_ok s → table_ok s').
Proof.
  destruct r as [data sender| |].
  - destruct (Utf8.decode (take (Z.to_nat BUFFER_SIZE) data))
      as [message|] eqn:Hdec.
    + rewrite (listen_loop_body_datagram _ _ _ _ _ _ Hdec).
      destruct (handle_message_returns env now message sender s)
        as (s' & t & Hrun & Hflags).
      exists s', t. split; [done|]. split; [done|].
      intros Hok.
      pose proof (handle_message_table_ok env now message sender s Hok)
        as Hok'.
      unfold exec in Hok'. by rewrite Hrun in Hok'.
    + unfold _listen_loop_body, socket_recvfrom, bytes_decode.
      munfold. cbn. rewrite Hdec. cbn.
      destruct (running s && verbose s); by eexists _, _.
  - by eexists _, _.
  - unfold _listen_loop_body. munfold. cbn.
    destruct (running s && verbose s); by eexists _, _.
Qed.

Lemma clipboard_monitor_loop_body_turn (env : Env) p s :
  ∃ s' t, _clipboard_monitor_loop_body env p s = (Returned tt, s', t)
          ∧ same_flags s s'
          ∧ discovered_devices s' = discovered_devices s.
Proof.
  destruct p as [text|].
  - rewrite clipboard_monitor_loop_body_run.
    destruct (_ || _); [by eexists _, _|].
    destruct (Utf8.encode text) as [raw|] eqn:Henc; [|by eexists _, _].
    rewrite (broadcast_clipboard_run _ _ _ _ Henc). by eexists _, _.
  - unfold _clipboard_monitor_loop_body. munfold. cbn.
    destruct (verbose s); by eexists _, _.
Qed.

Lemma heartbeat_loop_body_turn (env : Env) now s :
  ∃ s' t, _heartbeat_loop_body env now s = (Returned tt, s', t)
          ∧ same_flags s s' ∧ (table_ok s → table_ok s').
Proof.
  rewrite heartbeat_loop_body_run. eexists _, _.
  split; [done|]. split; [done|].
  intros Hok addr device [Hin _]%map_lookup_filter_Some. by apply Hok.
Qed.

Lemma listen_loop_run (env : Env) inbox s :
  ∃ s' t, _listen_loop env inbox s = (Returned tt, s', t)
          ∧ same_flags s s' ∧ (table_ok s → table_ok s').
Proof.
  revert s. induction inbox as [|[now r] inbox IH]; intros s.
  - by eexists _, _.
  - destruct (running s) eqn:Hrun.
    + destruct (listen_loop_body_turn env now r s) as (s1 & t1 & Hbody & Hf1 & Hok1).
      destruct (IH s1) as (s2 & t2 & Hloop & Hf2 & Hok2).
      rewrite (listen_loop_cons _ _ _ _ _ _ _ Hrun Hbody), Hloop.
      eexists _, _. split; [done|].
      split; [by eapply same_flags_trans|]. by intros ?%Hok1%Hok2.
    + cbn [_listen_loop]. munfold. cbn. rewrite Hrun. by eexists _, _.
Qed.

Lemma clipboard_monitor_loop_cons (env : Env) p pastes s s' t :
  running s = true →
  _clipboard_monitor_loop_body env p s = (Returned tt, s', t) →
  _clipboard_monitor_loop env (p :: pastes) s
  = let '(o, s'', t') := _clipboard_monitor_loop env pastes s' in
    (o, s'', t ++ t').
Proof.
  intros Hrun Hbody. cbn [_clipboard_monitor_loop]. munfold.
  cbv beta iota zeta. rewrite Hrun. cbv beta iota zeta. rewrite Hbody.
  by destruct (_clipboard_monitor_loop env pastes s') as [[o s''] t'].
Qed.

Lemma heartbeat_loop_cons (env : Env) now beats s s' t :
  running s = true →
  _heartbeat_loop_body env now s = (Returned tt, s', t) →
  _heartbeat_loop env (now :: beats) s
  = let '(o, s'', t') := _heartbeat_loop env beats s' in (o, s'', t ++ t').
Proof.
  intros Hrun Hbody. cbn [_heartbeat_loop]. munfold.
  cbv beta iota zeta. rewrite Hrun. cbv beta iota zeta. rewrite Hbody.
  by destruct (_heartbeat_loop env beats s') as [[o s''] t'].
Qed.

Lemma clipboard_monitor_loop_run (env : Env) pastes s :
  ∃ s' t, _clipboard_monitor_loop env pastes s = (Returned tt, s', t)
          ∧ same_flags s s'
          ∧ discovered_devices s' = discovered_devices s.
Proof.
  revert s. induction pastes as [|p pastes IH]; intros s.
  - by eexists _, _.
  - destruct (running s) eqn:Hrun.
    + destruct (clipboard_monitor_loop_body_turn env p s)
        as (s1 & t1 & Hbody & Hf1 & Hd1).
      destruct (IH s1) as (s2 & t2 & Hloop & Hf2 & Hd2).
      rewrite (clipboard_monitor_loop_cons _ _ _ _ _ _ Hrun Hbody), Hloop.
      eexists _, _. split; [done|].
      split; [by eapply same_flags_trans|]. congruence.
    + cbn [_clipboard_monitor_loop]. munfold. cbn. rewrite Hrun.
      by eexists _, _.
Qed.

Lemma heartbeat_loop_run (env : Env) beats s :
  ∃ s' t, _heartbeat_loop env beats s = (Returned tt, s', t)
          ∧ same_flags s s' ∧ (table_ok s → table_ok s').
Proof.
  revert s. induction beats as [|now beats IH]; intros s.
  - by eexists _, _.
  - destruct (running s) eqn:Hrun.
    + destruct (heartbeat_loop_body_turn env now s) as (s1 & t1 & Hbody & Hf1 & Hok1).
      destruct (IH s1) as (s2 & t2 & Hloop & Hf2 & Hok2).
      rewrite (heartbeat_loop_cons _ _ _ _ _ _ Hrun Hbody), Hloop.
      eexists _, _. split; [done|].
      split; [by eapply same_flags_trans|]. by intros ?%Hok1%Hok2.
    + cbn [_heartbeat_loop]. munfold. cbn. rewrite Hrun. by eexists _, _.
Qed.

(** X19. No input crashes or stops a loop. Whatever the socket delivers, the
    clipboard reads and the clock shows, each of the three loops returns
    without an exception, and leaves [running], [verbose] and [port] as they
    were: only [stop()] ends a loop. *)
Theorem loops_never_raise (env : Env) (inbox : list (datetime * Recv))
    (pastes : list Paste) (beats : list datetime) (s : Daemon) :
  (outcome (_listen_loop env inbox) s = Returned tt
   ∧ same_flags s (exec (_listen_loop env inbox) s).1)
  ∧ (outcome (_clipboard_monitor_loop env pastes) s = Returned tt
     ∧ same_flags s (exec (_clipboard_monitor_loop env pastes) s).1)
  ∧ (outcome (_heartbeat_loop env beats) s = Returned tt
     ∧ same_flags s (exec (_heartbeat_loop env beats) s).1).
Proof.
  unfold outcome, exec.
  destruct (listen_loop_run env inbox s) as (s1 & t1 & -> & Hf1 & _).
  destruct (clipboard_monitor_loop_run env pastes s) as (s2 & t2 & -> & Hf2 & _).
  destruct (heartbeat_loop_run env beats s) as (s3 & t3 & -> & Hf3 & _).
  done.
Qed.

(** X20. The three loops keep the peer table well-formed: from a table in
    which every peer is filed under its own address, with no '|' in its
    platform and name, whatever arrives, is read or is the time, the table
    after any number of turns is such a table. *)
Theorem loops_keep_table_ok (env : Env) (inbox : list (datetime * Recv))
    (pastes : list Paste) (beats : list datetime) (s : Daemon) :
  table_ok s →
  table_ok (exec (_listen_loop env inbox) s).1
  ∧ table_ok (exec (_clipboard_monitor_loop env pastes) s).1
  ∧ table_ok (exec (_heartbeat_loop env beats) s).1.
Proof.
  intros Hok. unfold exec.
  destruct (listen_loop_run env inbox s) as (s1 & t1 & -> & _ & Hok1).
  destruct (clipboard_monitor_loop_run env pastes s) as (s2 & t2 & -> & _ & Hd2).
  destruct (heartbeat_loop_run env beats s) as (s3 & t3 & -> & _ & Hok3).
  cbn [fst]. split; [by apply Hok1|]. split; [|by apply Hok3].
  intros addr device. rewrite Hd2. apply Hok.
Qed.

Lemma loops_keep_table_ok_witness :
  let inbox := [(1, RecvFrom (codes "NEXUSCLIP_DEVICE:Android|Pixel") peerA);
                (2, RecvTimeout);
                (3, RecvFrom (codes "NEXUSCLIP_HEARTBEAT") peerA)] in
  table_ok (exec (_listen_loop hostB inbox) started).1.
Proof.
  exact (proj1 (loops_keep_table_ok hostB
                  [(1, RecvFrom (codes "NEXUSCLIP_DEVICE:Android|Pixel") peerA);
                   (2, RecvTimeout);
                   (3, RecvFrom (codes "NEXUSCLIP_HEARTBEAT") peerA)]
                  [] [] started (table_ok_init SYNC_PORT true))).
Defined.

(** X21. A turn of the listening loop that gets no frame (a timeout, a socket
    error, a datagram that is not UTF-8) leaves the daemon as it was and
    calls neither the socket nor the clipboard. A timeout prints nothing;
    the two others print the exception when the daemon is running and
    verbose, and nothing once [stop()] has cleared [running]. *)
Theorem listen_turn_without_frame (env : Env) (now : datetime) (r : Recv)
    (s : Daemon) :
  (∀ data sender, r = RecvFrom data sender →
                  Utf8.decode (take (Z.to_nat BUFFER_SIZE) data) = None) →
  exec (_listen_loop_body env now r) s
  = (s, match r with
        | RecvTimeout => []
        | RecvError => listen_log s OSError
        | RecvFrom _ _ => listen_log s UnicodeDecodeError
        end).
Proof.
  intros Hbad. unfold exec, listen_log. destruct r as [data sender| |].
  - unfold _listen_loop_body, socket_recvfrom, bytes_decode.
    munfold. cbn. rewrite (Hbad data sender eq_refl). cbn.
    by destruct (running s && verbose s).
  - done.
  - unfold _listen_loop_body. munfold. cbn.
    by destruct (running s && verbose s).
Qed.

Lemma listen_turn_without_frame_witness :
  exec (_listen_loop_body hostB 1 (RecvFrom [0xC0; 0x80] peerA)) started
  = (started, [Print (ListenError UnicodeDecodeError)])
  ∧ exec (_listen_loop_body hostB 1 RecvError) (stop started)
    = (stop started, []).
Proof.
  split.
  - refine (listen_turn_without_frame hostB 1 (RecvFrom [0xC0; 0x80] peerA)
              started _).
    by intros data sender [= <- <-].
  - refine (listen_turn_without_frame hostB 1 RecvError (stop started) _).
    by intros data sender [=].
Defined.

(** After [stop()] the three loops return at once, with the daemon as
    [stop()] left it and without a call. *)
Lemma stopped_daemon_is_silent (env : Env) (inbox : list (datetime * Recv))
    (pastes : list Paste) (beats : list datetime) (s : Daemon) :
  exec (_listen_loop env inbox) (stop s) = (stop s, [])
  ∧ exec (_clipboard_monitor_loop env pastes) (stop s) = (stop s, [])
  ∧ exec (_heartbeat_loop env beats) (stop s) = (stop s, []).
Proof.
  split; [|split].
  - by destruct inbox as [|[now r] inbox].
  - by destruct pastes.
  - by destruct beats.
Qed.

(** ** The monitoring loop on a sequence of polls *)

(** The texts of a sequence of polls that differ from the snapshot at their
    turn: a text is a change when it is not empty and not the snapshot, and
    it is the snapshot from then on; a poll on which [pyperclip.paste]
    raises reads no text. *)
Fixpoint changes (snapshot : pystr) (pastes : list Paste) : list pystr :=
  match pastes with
  | [] => []
  | PasteError :: pastes' => changes snapshot pastes'
  | Pasted text :: pastes' =>
      if bool_decide (text = []) || bool_decide (text = snapshot)
      then changes snapshot pastes'
      else text :: changes text pastes'
  end.

(** A poll on which [pyperclip.paste] raises: the exception is caught,
    printed in verbose mode, and the daemon is as before. *)
Lemma clipboard_monitor_loop_body_paste_error (env : Env) (s : Daemon) :
  _clipboard_monitor_loop_body env PasteError s
  = (Returned tt, s, verbose_log s (MonitorError PyperclipException)).
Proof.
  unfold _clipboard_monitor_loop_body, pyperclip_paste, verbose_log.
  munfold. cbn. by destruct (verbose s).
Qed.

(** X22. The monitoring loop sends the changes and nothing else. Over any
    sequence of polls, those on which [pyperclip.paste] raises included, a
    running daemon broadcasts, in order, exactly the texts that were read,
    were not empty and differed from the snapshot at their turn (those that
    UTF-8 encodes), each as one datagram for the broadcast address; it
    writes nothing to the clipboard; and its snapshot at the end is the last
    such text, or the snapshot it began with. *)
Theorem monitor_loop_sends_changes (env : Env) (pastes : list Paste)
    (s : Daemon) :
  running s = true →
  let news := changes (last_clipboard s) pastes in
  let after := exec (_clipboard_monitor_loop env pastes) s in
  sendto_calls after.2 = news ≫= broadcast_call (port s)
  ∧ copy_calls after.2 = []
  ∧ last_clipboard after.1 = default (last_clipboard s) (last news).
Proof.
  cbv zeta. revert s. induction pastes as [|[text|] pastes IH]; intros s Hrun.
  - done.
  - destruct (clipboard_monitor_loop_body_poll env text s)
      as (t & Hbody & Hcopy & Hsend).
    unfold exec.
    rewrite (clipboard_monitor_loop_cons _ _ _ _ _ _ Hrun Hbody).
    cbn [changes].
    destruct (bool_decide (text = []) || bool_decide (text = last_clipboard s)).
    + specialize (IH s Hrun). unfold exec in IH.
      destruct (_clipboard_monitor_loop env pastes s) as [[o s'] t'].
      cbn [fst snd] in *. rewrite sendto_calls_app, copy_calls_app.
      by rewrite Hsend, Hcopy.
    + specialize (IH (with_clipboard text s) Hrun). unfold exec in IH.
      destruct (_clipboard_monitor_loop env pastes (with_clipboard text s))
        as [[o s'] t'].
      cbn [fst snd last_clipboard with_clipboard port] in *.
      destruct IH as (IHsend & IHcopy & IHlast).
      rewrite sendto_calls_app, copy_calls_app, Hsend, Hcopy, IHsend, IHcopy.
      split; [done|]. split; [done|].
      rewrite IHlast, last_cons. by destruct (last (changes text pastes)).
  - unfold exec.
    rewrite (clipboard_monitor_loop_cons _ _ _ _ _ _ Hrun
               (clipboard_monitor_loop_body_paste_error env s)).
    cbn [changes].
    specialize (IH s Hrun). unfold exec in IH.
    destruct (_clipboard_monitor_loop env pastes s) as [[o s'] t'].
    cbn [fst snd] in *. rewrite sendto_calls_app, copy_calls_app.
    by rewrite sendto_calls_verbose_log, copy_calls_verbose_log.
Qed.

Lemma monitor_loop_sends_changes_witness :
  let pastes := [Pasted (codes "a"); Pasted (codes "a"); PasteError;
                 Pasted []; Pasted (codes "b"); PasteError;
                 Pasted (codes "a")] in
  changes [] pastes = [codes "a"; codes "b"; codes "a"]
  ∧ sendto_calls (exec (_clipboard_monitor_loop hostB pastes) started).2
    = [(codes "NEXUSCLIP_CLIP:YQ==", BROADCAST_ADDRESS, SYNC_PORT);
       (codes "NEXUSCLIP_CLIP:Yg==", BROADCAST_ADDRESS, SYNC_PORT);
       (codes "NEXUSCLIP_CLIP:YQ==", BROADCAST_ADDRESS, SYNC_PORT)].
Proof.
  split; [reflexivity|].
  exact (proj1 (monitor_loop_sends_changes hostB
                  [Pasted (codes "a"); Pasted (codes "a"); PasteError;
                   Pasted []; Pasted (codes "b"); PasteError;
                   Pasted (codes "a")]
                  started eq_refl)).
Defined.

(** X23. The snapshot is set before the text is encoded. A text that is new
    but that UTF-8 cannot encode (a lone surrogate) becomes the snapshot
    although nothing is sent for it, so the next poll that reads it does
    nothing at all: such a text is given up, not tried again. *)
Theorem unencodable_text_is_given_up (env : Env) (text : pystr) (s : Daemon) :
  text ≠ [] → text ≠ last_clipboard s → Utf8.encode text = None →
  let poll := _clipboard_monitor_loop_body env (Pasted text) in
  let first := exec poll s in
  first.1 = with_clipboard text s
  ∧ sendto_calls first.2 = []
  ∧ exec poll first.1 = (first.1, []).
Proof.
  intros Hempty Hne Henc. cbv zeta.
  assert (exec (_clipboard_monitor_loop_body env (Pasted text)) s
          = (with_clipboard text s,
             verbose_log s (MonitorError UnicodeEncodeError))) as Hfirst.
  { unfold exec. rewrite clipboard_monitor_loop_body_run.
    rewrite (bool_decide_eq_false_2 _ Hempty), (bool_decide_eq_false_2 _ Hne).
    by rewrite Henc. }
  rewrite Hfirst. cbn [fst snd].
  split; [done|]. split; [apply sendto_calls_verbose_log|].
  unfold exec. rewrite clipboard_monitor_loop_body_run.
  rewrite (bool_decide_eq_true_2 (text = last_clipboard _)) by done.
  by rewrite orb_true_r.
Qed.

Lemma unencodable_text_is_given_up_witness :
  let poll := _clipboard_monitor_loop_body hostB (Pasted [0xD800]) in
  last_clipboard (exec poll started).1 = [0xD800]
  ∧ sendto_calls (exec poll started).2 = []
  ∧ exec poll (exec poll started).1 = ((exec poll started).1, []).
Proof.
  assert ([0xD800] ≠ ([] : pystr)) as Hempty by done.
  assert ([0xD800] ≠ last_clipboard started) as Hne by done.
  destruct (unencodable_text_is_given_up hostB [0xD800] started
              Hempty Hne eq_refl) as (Hstate & Hsend & Hnext).
  split; [by rewrite Hstate|]. split; [exact Hsend|exact Hnext].
Defined.

(** ** The lines that are printed *)

(** X24. The text shown in a "Received" or "Sent" line is the content itself
    when it has at most [n] characters (50 and 30 in the source), and
    otherwise its first [n] characters and three dots: never more than
    [n + 3] characters, whatever the length of the content. *)
Theorem preview_bounded (n : nat) (s : pystr) :
  (length (preview n s) ≤ n + 3)%nat
  ∧ ((length s ≤ n)%nat → preview n s = s)
  ∧ ((n < length s)%nat → preview n s = take n s ++ codes "...").
Proof.
  unfold preview. destruct (Nat.ltb_spec n (length s)) as [Hlt|Hge].
  - split; [|split; [lia|done]].
    rewrite length_app, length_take.
    change (length (codes "...")) with 3%nat. lia.
  - split; [lia|]. split; [done|lia].
Qed.

Lemma preview_bounded_witness :
  preview 3 (codes "hello") = codes "hel..."
  ∧ preview 5 (codes "hello") = codes "hello".
Proof.
  destruct (preview_bounded 3 (codes "hello")) as (_ & _ & Hlong).
  destruct (preview_bounded 5 (codes "hello")) as (_ & Hshort & _).
  split; [apply Hlong|apply Hshort];
    change (length (codes "hello")) with 5%nat; lia.
Defined.
